(** * libuiohook, Windows event injection: [src/windows/post_event.c]

    A shallow embedding of [convert_to_relative_position] and
    [hook_post_event], and the properties of the injector that follow
    from the code.

    Conventions.
    - C integers are values of [Z]; every conversion the C code performs
      (to [WORD], [uint16_t], [int], [DWORD]) is written out with
      [to_uint] / [to_sint].  Signed arithmetic that leaves the range of
      [int] is modelled by two's-complement wrap-around.
    - An integer division whose result is not defined (division by zero,
      [INT_MIN / -1]) is a fault: the computation yields [None].
    - The logger and [SendInput] are effects; they are recorded, in order,
      in a [world]. *)

From Stdlib Require Import ZArith List Bool Lia.
Import ListNotations.
Local Open Scope Z_scope.

(** ** Fixed-width integers *)

Definition to_uint (bits z : Z) : Z := z mod 2 ^ bits.

Definition to_sint (bits z : Z) : Z :=
  (z + 2 ^ (bits - 1)) mod 2 ^ bits - 2 ^ (bits - 1).

Definition INT_MIN : Z := - 2 ^ 31.
Definition INT_MAX : Z := 2 ^ 31 - 1.

(** [int], [WORD]/[uint16_t] and [DWORD] conversions. *)
Definition to_int (z : Z) : Z := to_sint 32 z.
Definition to_WORD (z : Z) : Z := to_uint 16 z.
Definition to_uint16_t (z : Z) : Z := to_uint 16 z.
Definition to_DWORD (z : Z) : Z := to_uint 32 z.

(** The C operator [/] on [int]: truncation toward zero, undefined for a
    zero divisor and for [INT_MIN / -1]. *)
Definition int_div (a b : Z) : option Z :=
  if b =? 0 then None
  else if (a =? INT_MIN) && (b =? -1) then None
  else Some (Z.quot a b).

(** ** Constants *)

(** Defined in the file itself (lines 39-50). *)
Definition KEYEVENTF_EXTENDEDKEY : Z := 0x0001.
Definition KEYEVENTF_KEYUP : Z := 0x0002.
Definition KEYEVENTF_KEYDOWN : Z := 0x0000.
Definition MAX_WINDOWS_COORD_VALUE : Z := Z.shiftl 1 16.

(** Values of the Windows SDK ([winuser.h]). *)
Definition VK_PRIOR : Z := 0x21.
Definition VK_NEXT : Z := 0x22.
Definition VK_END : Z := 0x23.
Definition VK_HOME : Z := 0x24.
Definition VK_LEFT : Z := 0x25.
Definition VK_UP : Z := 0x26.
Definition VK_RIGHT : Z := 0x27.
Definition VK_DOWN : Z := 0x28.
Definition VK_INSERT : Z := 0x2D.
Definition VK_DELETE : Z := 0x2E.

Definition INPUT_MOUSE : Z := 0.
Definition INPUT_KEYBOARD : Z := 1.

Definition SM_CXSCREEN : Z := 0.
Definition SM_CYSCREEN : Z := 1.

Definition MOUSEEVENTF_MOVE : Z := 0x0001.
Definition MOUSEEVENTF_LEFTDOWN : Z := 0x0002.
Definition MOUSEEVENTF_LEFTUP : Z := 0x0004.
Definition MOUSEEVENTF_RIGHTDOWN : Z := 0x0008.
Definition MOUSEEVENTF_RIGHTUP : Z := 0x0010.
Definition MOUSEEVENTF_MIDDLEDOWN : Z := 0x0020.
Definition MOUSEEVENTF_MIDDLEUP : Z := 0x0040.
Definition MOUSEEVENTF_XDOWN : Z := 0x0080.
Definition MOUSEEVENTF_XUP : Z := 0x0100.
Definition MOUSEEVENTF_WHEEL : Z := 0x0800.
Definition MOUSEEVENTF_ABSOLUTE : Z := 0x8000.

Definition XBUTTON1 : Z := 0x0001.
Definition XBUTTON2 : Z := 0x0002.
Definition WHEEL_DELTA : Z := 120.

(** Modelled from the spec: the button identifiers of [uiohook.h], which
    is not among the sources.  The spec numbers the buttons by ordinal:
    1 is the left button, 2 the right, 3 the middle, 4 and 5 the two
    extra buttons the OS names. *)
Definition MOUSE_BUTTON1 : Z := 1.
Definition MOUSE_BUTTON2 : Z := 2.
Definition MOUSE_BUTTON3 : Z := 3.
Definition MOUSE_BUTTON4 : Z := 4.
Definition MOUSE_BUTTON5 : Z := 5.

(** Lines 53-64. *)
Definition extend_key_table : list Z :=
  [ VK_UP; VK_DOWN; VK_LEFT; VK_RIGHT; VK_HOME; VK_END;
    VK_PRIOR; VK_NEXT; VK_INSERT; VK_DELETE ].

(** ** [convert_to_relative_position] (lines 66-70) *)

Definition convert_to_relative_position (coordinate screen_size : Z)
  : option Z :=
  let offset := if 0 <? coordinate then 1 else -1 in
  match int_div (to_int (coordinate * MAX_WINDOWS_COORD_VALUE)) screen_size with
  | Some q => Some (to_int (q + offset))
  | None => None
  end.

(** ** Data model *)

(** Modelled from the spec: the event tags of [uiohook.h], which is not
    among the sources.  The spec's data model makes the event a tagged
    union over these variants; [EVENT_OTHER] stands for any tag value the
    [switch] statements do not name and carries that value. *)
Inductive event_type : Type :=
  | EVENT_HOOK_ENABLED
  | EVENT_HOOK_DISABLED
  | EVENT_KEY_TYPED
  | EVENT_KEY_PRESSED
  | EVENT_KEY_RELEASED
  | EVENT_MOUSE_CLICKED
  | EVENT_MOUSE_PRESSED
  | EVENT_MOUSE_RELEASED
  | EVENT_MOUSE_MOVED
  | EVENT_MOUSE_DRAGGED
  | EVENT_MOUSE_WHEEL
  | EVENT_OTHER (raw : Z).

(** Modelled from the spec: [uiohook_event], declared in [uiohook.h].
    Only the members [hook_post_event] reads are kept: [type], [mask],
    [data.keyboard.keycode], [data.mouse.button], [data.mouse.x],
    [data.mouse.y], [data.wheel.amount] and [data.wheel.rotation].  The
    members of the [data] union are kept apart, as the spec's variants
    carry them. *)
Record uiohook_event : Type := {
  type : event_type;
  mask : Z;
  keyboard_keycode : Z;
  mouse_button : Z;
  mouse_x : Z;
  mouse_y : Z;
  wheel_amount : Z;
  wheel_rotation : Z
}.

(** The Windows [INPUT] record: [type] and the members of [ki] and [mi]
    that the function writes.  [calloc] returns it zero-filled. *)
Record INPUT : Type := {
  input_type : Z;
  ki_wVk : Z;
  ki_wScan : Z;
  ki_dwFlags : Z;
  ki_time : Z;
  mi_dx : Z;
  mi_dy : Z;
  mi_mouseData : Z;
  mi_dwFlags : Z;
  mi_time : Z
}.

Definition zeroed_INPUT : INPUT :=
  {| input_type := 0; ki_wVk := 0; ki_wScan := 0; ki_dwFlags := 0;
     ki_time := 0; mi_dx := 0; mi_dy := 0; mi_mouseData := 0;
     mi_dwFlags := 0; mi_time := 0 |}.

Definition set_input_type (v : Z) (i : INPUT) : INPUT :=
  {| input_type := v; ki_wVk := ki_wVk i; ki_wScan := ki_wScan i;
     ki_dwFlags := ki_dwFlags i; ki_time := ki_time i; mi_dx := mi_dx i;
     mi_dy := mi_dy i; mi_mouseData := mi_mouseData i;
     mi_dwFlags := mi_dwFlags i; mi_time := mi_time i |}.

Definition set_ki_wVk (v : Z) (i : INPUT) : INPUT :=
  {| input_type := input_type i; ki_wVk := v; ki_wScan := ki_wScan i;
     ki_dwFlags := ki_dwFlags i; ki_time := ki_time i; mi_dx := mi_dx i;
     mi_dy := mi_dy i; mi_mouseData := mi_mouseData i;
     mi_dwFlags := mi_dwFlags i; mi_time := mi_time i |}.

Definition set_ki_wScan (v : Z) (i : INPUT) : INPUT :=
  {| input_type := input_type i; ki_wVk := ki_wVk i; ki_wScan := v;
     ki_dwFlags := ki_dwFlags i; ki_time := ki_time i; mi_dx := mi_dx i;
     mi_dy := mi_dy i; mi_mouseData := mi_mouseData i;
     mi_dwFlags := mi_dwFlags i; mi_time := mi_time i |}.

Definition set_ki_dwFlags (v : Z) (i : INPUT) : INPUT :=
  {| input_type := input_type i; ki_wVk := ki_wVk i; ki_wScan := ki_wScan i;
     ki_dwFlags := v; ki_time := ki_time i; mi_dx := mi_dx i;
     mi_dy := mi_dy i; mi_mouseData := mi_mouseData i;
     mi_dwFlags := mi_dwFlags i; mi_time := mi_time i |}.

Definition set_ki_time (v : Z) (i : INPUT) : INPUT :=
  {| input_type := input_type i; ki_wVk := ki_wVk i; ki_wScan := ki_wScan i;
     ki_dwFlags := ki_dwFlags i; ki_time := v; mi_dx := mi_dx i;
     mi_dy := mi_dy i; mi_mouseData := mi_mouseData i;
     mi_dwFlags := mi_dwFlags i; mi_time := mi_time i |}.

Definition set_mi_dx (v : Z) (i : INPUT) : INPUT :=
  {| input_type := input_type i; ki_wVk := ki_wVk i; ki_wScan := ki_wScan i;
     ki_dwFlags := ki_dwFlags i; ki_time := ki_time i; mi_dx := v;
     mi_dy := mi_dy i; mi_mouseData := mi_mouseData i;
     mi_dwFlags := mi_dwFlags i; mi_time := mi_time i |}.

Definition set_mi_dy (v : Z) (i : INPUT) : INPUT :=
  {| input_type := input_type i; ki_wVk := ki_wVk i; ki_wScan := ki_wScan i;
     ki_dwFlags := ki_dwFlags i; ki_time := ki_time i; mi_dx := mi_dx i;
     mi_dy := v; mi_mouseData := mi_mouseData i;
     mi_dwFlags := mi_dwFlags i; mi_time := mi_time i |}.

Definition set_mi_mouseData (v : Z) (i : INPUT) : INPUT :=
  {| input_type := input_type i; ki_wVk := ki_wVk i; ki_wScan := ki_wScan i;
     ki_dwFlags := ki_dwFlags i; ki_time := ki_time i; mi_dx := mi_dx i;
     mi_dy := mi_dy i; mi_mouseData := v;
     mi_dwFlags := mi_dwFlags i; mi_time := mi_time i |}.

Definition set_mi_dwFlags (v : Z) (i : INPUT) : INPUT :=
  {| input_type := input_type i; ki_wVk := ki_wVk i; ki_wScan := ki_wScan i;
     ki_dwFlags := ki_dwFlags i; ki_time := ki_time i; mi_dx := mi_dx i;
     mi_dy := mi_dy i; mi_mouseData := mi_mouseData i;
     mi_dwFlags := v; mi_time := mi_time i |}.

Definition set_mi_time (v : Z) (i : INPUT) : INPUT :=
  {| input_type := input_type i; ki_wVk := ki_wVk i; ki_wScan := ki_wScan i;
     ki_dwFlags := ki_dwFlags i; ki_time := ki_time i; mi_dx := mi_dx i;
     mi_dy := mi_dy i; mi_mouseData := mi_mouseData i;
     mi_dwFlags := mi_dwFlags i; mi_time := v |}.

(** [p |= f] on a flag word. *)
Definition or_ki_dwFlags (f : Z) (i : INPUT) : INPUT :=
  set_ki_dwFlags (Z.lor (ki_dwFlags i) f) i.
Definition or_mi_dwFlags (f : Z) (i : INPUT) : INPUT :=
  set_mi_dwFlags (Z.lor (mi_dwFlags i) f) i.

(** The records the function builds, by the members that are not zero:
    a keyboard record, a mouse record before the second [switch], and the
    record of a move or a drag. *)
Definition key_record (wVk flags : Z) : INPUT :=
  {| input_type := INPUT_KEYBOARD; ki_wVk := wVk; ki_wScan := 0;
     ki_dwFlags := flags; ki_time := 0; mi_dx := 0; mi_dy := 0;
     mi_mouseData := 0; mi_dwFlags := 0; mi_time := 0 |}.

Definition mouse_record (dx dy : Z) : INPUT :=
  {| input_type := INPUT_MOUSE; ki_wVk := 0; ki_wScan := 0; ki_dwFlags := 0;
     ki_time := 0; mi_dx := dx; mi_dy := dy; mi_mouseData := 0;
     mi_dwFlags := 0; mi_time := 0 |}.

Definition move_record (dx dy : Z) : INPUT :=
  {| input_type := INPUT_MOUSE; ki_wVk := 0; ki_wScan := 0; ki_dwFlags := 0;
     ki_time := 0; mi_dx := dx; mi_dy := dy; mi_mouseData := 0;
     mi_dwFlags := Z.lor MOUSEEVENTF_ABSOLUTE MOUSEEVENTF_MOVE;
     mi_time := 0 |}.

(** ** The Diagnostic Sink *)

Inductive log_level : Type := LOG_LEVEL_WARN | LOG_LEVEL_ERROR.

(** One constructor per [logger] call of the function; the arguments are
    the values the format string prints after the function name and the
    line number. *)
Inductive log_message : Type :=
  | Unable_to_lookup_scancode (keycode : Z)      (* line 91 *)
  | failed_to_allocate_memory                    (* lines 102 and 120 *)
  | Ignoring_post_event_type (raw : Z)           (* line 136 *)
  | SendInput_failed (last_error : Z).           (* line 234 *)

Definition log_entry : Type := (log_level * log_message)%type.

Definition is_WARN (e : log_entry) : bool :=
  match fst e with LOG_LEVEL_WARN => true | LOG_LEVEL_ERROR => false end.
Definition is_ERROR (e : log_entry) : bool :=
  match fst e with LOG_LEVEL_ERROR => true | LOG_LEVEL_WARN => false end.

(** ** The operating system, as the function sees it during one call *)

Record os : Type := {
  GetSystemMetrics : Z -> Z;
  (** [true] when [calloc] returns a block, [false] when it returns NULL *)
  calloc_succeeds : bool;
  (** the value [SendInput(1, input, sizeof(INPUT))] returns *)
  SendInput_returns : INPUT -> Z;
  GetLastError : Z
}.

(** What a call leaves behind: the log entries written and the records
    handed to [SendInput], both oldest first. *)
Record world : Type := {
  log : list log_entry;
  sent : list INPUT
}.

Definition untouched : world := {| log := []; sent := [] |}.

(** State and fault monad: [None] is a fault of the C program. *)
Definition M (A : Type) : Type := world -> option (A * world).

Definition ret {A} (a : A) : M A := fun w => Some (a, w).
Definition bind {A B} (m : M A) (k : A -> M B) : M B :=
  fun w => match m w with
           | Some (a, w') => k a w'
           | None => None
           end.
Definition fault {A} : M A := fun _ => None.
Definition lift {A} (o : option A) : M A :=
  match o with Some a => ret a | None => fault end.

Notation "x <- m ;; k" := (bind m (fun x => k))
  (at level 61, m at next level, right associativity).
Notation "m ;;; k" := (bind m (fun _ => k))
  (at level 61, right associativity).

Definition logger (level : log_level) (msg : log_message) : M unit :=
  fun w => Some (tt, {| log := log w ++ [(level, msg)]; sent := sent w |}).

Definition calloc (o : os) : M (option INPUT) :=
  ret (if calloc_succeeds o then Some zeroed_INPUT else None).

Definition SendInput (o : os) (input : INPUT) : M Z :=
  fun w => Some (SendInput_returns o input,
                 {| log := log w; sent := sent w ++ [input] |}).

(** ** [hook_post_event] (lines 73-238) *)

Section Injector.

(** Declared outside the sources: the SHIFT bits of the modifier mask
    ([uiohook.h]) and the Keycode Resolver ([input_helper.h]). *)
Variable MASK_SHIFT : Z.
Variable scancode_to_keycode : Z -> Z.

(** Lines 96-99.  [rest] holds the entries of the table from index [i]
    on: the loop goes on while [i] is inside the table and the entry at
    [i] equals [wVk], and sets the flag in each round. *)
Fixpoint extend_key_loop (rest : list Z) (input : INPUT) : INPUT :=
  match rest with
  | [] => input
  | entry :: rest' =>
      if ki_wVk input =? entry
      then extend_key_loop rest' (or_ki_dwFlags KEYEVENTF_EXTENDEDKEY input)
      else input
  end.

(** The first [switch] (lines 80-139): allocate and fill the record. *)
Definition prepare_input (o : os) (event : uiohook_event)
           (screen_width screen_height : Z) : M (option INPUT) :=
  match type event with
  | EVENT_KEY_PRESSED | EVENT_KEY_RELEASED =>
      input <- calloc o ;;
      match input with
      | Some input =>
          let input := set_input_type INPUT_KEYBOARD input in
          let input := set_ki_wScan 0 input in
          let input := set_ki_time 0 input in
          let input :=
            set_ki_wVk
              (to_WORD (scancode_to_keycode (keyboard_keycode event)))
              input in
          (if ki_wVk input =? 0x0000
           then logger LOG_LEVEL_WARN
                  (Unable_to_lookup_scancode (keyboard_keycode event))
           else ret tt) ;;;
          let input :=
            if negb (Z.land (mask event) MASK_SHIFT =? 0)
            then extend_key_loop extend_key_table input
            else input in
          ret (Some input)
      | None =>
          logger LOG_LEVEL_ERROR failed_to_allocate_memory ;;;
          ret None
      end
  | EVENT_MOUSE_PRESSED
  | EVENT_MOUSE_RELEASED
  | EVENT_MOUSE_WHEEL
  | EVENT_MOUSE_MOVED
  | EVENT_MOUSE_DRAGGED =>
      input <- calloc o ;;
      match input with
      | Some input =>
          let input := set_input_type INPUT_MOUSE input in
          let input := set_mi_time 0 input in
          dx <- lift (convert_to_relative_position
                        (mouse_x event) screen_width) ;;
          let input := set_mi_dx dx input in
          dy <- lift (convert_to_relative_position
                        (mouse_y event) screen_height) ;;
          let input := set_mi_dy dy input in
          ret (Some input)
      | None =>
          logger LOG_LEVEL_ERROR failed_to_allocate_memory ;;;
          ret None
      end
  | EVENT_MOUSE_CLICKED
  | EVENT_KEY_TYPED
  | EVENT_HOOK_ENABLED
  | EVENT_HOOK_DISABLED => ret None
  | EVENT_OTHER raw =>
      logger LOG_LEVEL_WARN (Ignoring_post_event_type raw) ;;;
      ret None
  end.

(** The second [switch] (lines 143-231): the flags and the auxiliary
    data. *)
Definition finish_input (event : uiohook_event) (input : INPUT) : INPUT :=
  match type event with
  | EVENT_KEY_PRESSED => or_ki_dwFlags KEYEVENTF_KEYDOWN input
  | EVENT_KEY_RELEASED => or_ki_dwFlags KEYEVENTF_KEYUP input
  | EVENT_MOUSE_PRESSED =>
      let input := or_mi_dwFlags MOUSEEVENTF_XDOWN input in
      if mouse_button event =? MOUSE_BUTTON1
      then or_mi_dwFlags MOUSEEVENTF_LEFTDOWN input
      else if mouse_button event =? MOUSE_BUTTON2
      then or_mi_dwFlags MOUSEEVENTF_RIGHTDOWN input
      else if mouse_button event =? MOUSE_BUTTON3
      then or_mi_dwFlags MOUSEEVENTF_MIDDLEDOWN input
      else
        let input := or_mi_dwFlags MOUSEEVENTF_XDOWN input in
        if mouse_button event =? MOUSE_BUTTON4
        then set_mi_mouseData XBUTTON1 input
        else if mouse_button event =? MOUSE_BUTTON5
        then set_mi_mouseData XBUTTON2 input
        else set_mi_mouseData
               (to_DWORD (to_int (mouse_button event - 3))) input
  | EVENT_MOUSE_RELEASED =>
      let input := or_mi_dwFlags MOUSEEVENTF_XUP input in
      if mouse_button event =? MOUSE_BUTTON1
      then or_mi_dwFlags MOUSEEVENTF_LEFTUP input
      else if mouse_button event =? MOUSE_BUTTON2
      then or_mi_dwFlags MOUSEEVENTF_RIGHTUP input
      else if mouse_button event =? MOUSE_BUTTON3
      then or_mi_dwFlags MOUSEEVENTF_MIDDLEUP input
      else
        let input := or_mi_dwFlags MOUSEEVENTF_XUP input in
        if mouse_button event =? MOUSE_BUTTON4
        then set_mi_mouseData XBUTTON1 input
        else if mouse_button event =? MOUSE_BUTTON5
        then set_mi_mouseData XBUTTON2 input
        else set_mi_mouseData
               (to_DWORD (to_int (mouse_button event - 3))) input
  | EVENT_MOUSE_WHEEL =>
      let input := or_mi_dwFlags MOUSEEVENTF_WHEEL input in
      set_mi_mouseData
        (to_DWORD
           (to_int (to_int (wheel_amount event * wheel_rotation event)
                    * WHEEL_DELTA)))
        input
  | EVENT_MOUSE_DRAGGED
  | EVENT_MOUSE_MOVED =>
      or_mi_dwFlags (Z.lor MOUSEEVENTF_ABSOLUTE MOUSEEVENTF_MOVE) input
  | _ => input
  end.

Definition hook_post_event (o : os) (event : uiohook_event) : M unit :=
  let screen_width := to_uint16_t (GetSystemMetrics o SM_CXSCREEN) in
  let screen_height := to_uint16_t (GetSystemMetrics o SM_CYSCREEN) in
  input <- prepare_input o event screen_width screen_height ;;
  match input with
  | Some input =>
      let input := finish_input event input in
      r <- SendInput o input ;;
      if r =? 0
      then logger LOG_LEVEL_ERROR (SendInput_failed (GetLastError o))
      else ret tt
  | None => ret tt
  end.

(** A call of the injector from a state in which nothing has been
    logged or sent. *)
Definition run (o : os) (event : uiohook_event) : option (unit * world) :=
  hook_post_event o event untouched.

(** The virtual key, the extended-key bit and the transition bit of the
    record a keyboard event submits. *)
Definition resolved_wVk (event : uiohook_event) : Z :=
  to_WORD (scancode_to_keycode (keyboard_keycode event)).

Definition extended_bit (event : uiohook_event) : Z :=
  if negb (Z.land (mask event) MASK_SHIFT =? 0)
     && (resolved_wVk event =? VK_UP)
  then KEYEVENTF_EXTENDEDKEY else 0.

Definition transition_bit (event : uiohook_event) : Z :=
  match type event with
  | EVENT_KEY_PRESSED => KEYEVENTF_KEYDOWN
  | _ => KEYEVENTF_KEYUP
  end.

Definition keyboard_input (event : uiohook_event) : INPUT :=
  key_record (resolved_wVk event)
             (Z.lor (extended_bit event) (transition_bit event)).

End Injector.

(** ** Vocabulary of the properties *)

(** The C test [flags & f]. *)
Definition has_flag (flags f : Z) : bool := negb (Z.land flags f =? 0).

(** The primary display's extents as [hook_post_event] holds them
    (lines 75-76). *)
Definition screen_width (o : os) : Z :=
  to_uint16_t (GetSystemMetrics o SM_CXSCREEN).
Definition screen_height (o : os) : Z :=
  to_uint16_t (GetSystemMetrics o SM_CYSCREEN).

(** The tags of the first [switch], case group by case group. *)
Definition is_keyboard_event (t : event_type) : bool :=
  match t with
  | EVENT_KEY_PRESSED | EVENT_KEY_RELEASED => true
  | _ => false
  end.

Definition is_mouse_event (t : event_type) : bool :=
  match t with
  | EVENT_MOUSE_PRESSED | EVENT_MOUSE_RELEASED | EVENT_MOUSE_WHEEL
  | EVENT_MOUSE_MOVED | EVENT_MOUSE_DRAGGED => true
  | _ => false
  end.

Definition is_ignored_event (t : event_type) : bool :=
  match t with
  | EVENT_MOUSE_CLICKED | EVENT_KEY_TYPED
  | EVENT_HOOK_ENABLED | EVENT_HOOK_DISABLED => true
  | _ => false
  end.

(** The key-transition part of a keyboard flag word: the bits of
    [KEYEVENTF_KEYDOWN | KEYEVENTF_KEYUP].  Key-down is the value
    [0x0000] of that part, key-up the value [0x0002]. *)
Definition key_transition (input : INPUT) : Z :=
  Z.land (ki_dwFlags input) (Z.lor KEYEVENTF_KEYDOWN KEYEVENTF_KEYUP).

(** The auxiliary data of a mouse record read as the signed 32-bit
    amount a wheel event carries. *)
Definition signed_mouseData (input : INPUT) : Z := to_int (mi_mouseData input).

(** The button-transition flags of a tag: the down flags for
    [EVENT_MOUSE_PRESSED], the up flags otherwise. *)
Definition x_transition (t : event_type) : Z :=
  match t with EVENT_MOUSE_PRESSED => MOUSEEVENTF_XDOWN | _ => MOUSEEVENTF_XUP end.
Definition left_transition (t : event_type) : Z :=
  match t with EVENT_MOUSE_PRESSED => MOUSEEVENTF_LEFTDOWN | _ => MOUSEEVENTF_LEFTUP end.
Definition right_transition (t : event_type) : Z :=
  match t with EVENT_MOUSE_PRESSED => MOUSEEVENTF_RIGHTDOWN | _ => MOUSEEVENTF_RIGHTUP end.
Definition middle_transition (t : event_type) : Z :=
  match t with EVENT_MOUSE_PRESSED => MOUSEEVENTF_MIDDLEDOWN | _ => MOUSEEVENTF_MIDDLEUP end.

(** What the call logs after [SendInput] has returned. *)
Definition SendInput_log (o : os) (input : INPUT) : list log_entry :=
  if SendInput_returns o input =? 0
  then [(LOG_LEVEL_ERROR, SendInput_failed (GetLastError o))]
  else [].

(** ** Sample collaborators and events *)

(** A SHIFT mask with a left and a right bit, a resolver that knows the
    up arrow, the down arrow and the letter A, and three hosts: a desktop
    with a 1920 by 1080 primary display, the same desktop out of memory,
    and a host whose display has no extents. *)
Definition sample_MASK_SHIFT : Z := 0x11.

Definition sample_resolver (keycode : Z) : Z :=
  if keycode =? 0xE048 then VK_UP
  else if keycode =? 0xE050 then VK_DOWN
  else if keycode =? 0x001E then 0x41
  else 0.

Definition desktop : os :=
  {| GetSystemMetrics := fun index => if index =? SM_CXSCREEN then 1920 else 1080;
     calloc_succeeds := true;
     SendInput_returns := fun _ => 1;
     GetLastError := 0 |}.

Definition desktop_out_of_memory : os :=
  {| GetSystemMetrics := GetSystemMetrics desktop;
     calloc_succeeds := false;
     SendInput_returns := SendInput_returns desktop;
     GetLastError := 8 |}.

Definition headless : os :=
  {| GetSystemMetrics := fun _ => 0;
     calloc_succeeds := true;
     SendInput_returns := fun _ => 1;
     GetLastError := 0 |}.

Definition key_event (t : event_type) (m keycode : Z) : uiohook_event :=
  {| type := t; mask := m; keyboard_keycode := keycode; mouse_button := 0;
     mouse_x := 0; mouse_y := 0; wheel_amount := 0; wheel_rotation := 0 |}.

Definition mouse_event (t : event_type) (button x y : Z) : uiohook_event :=
  {| type := t; mask := 0; keyboard_keycode := 0; mouse_button := button;
     mouse_x := x; mouse_y := y; wheel_amount := 0; wheel_rotation := 0 |}.

Definition wheel_event (amount rotation : Z) : uiohook_event :=
  {| type := EVENT_MOUSE_WHEEL; mask := 0; keyboard_keycode := 0;
     mouse_button := 0; mouse_x := 100; mouse_y := 200;
     wheel_amount := amount; wheel_rotation := rotation |}.

(** ** Further vocabulary and samples *)

(** The state [w] followed by what a call has added. *)
Definition after (w d : world) : world :=
  {| log := log w ++ log d; sent := sent w ++ sent d |}.

(** The host [o] with other answers from [GetSystemMetrics]. *)
Definition with_metrics (metrics : Z -> Z) (o : os) : os :=
  {| GetSystemMetrics := metrics;
     calloc_succeeds := calloc_succeeds o;
     SendInput_returns := SendInput_returns o;
     GetLastError := GetLastError o |}.

(** The desktop on which [SendInput] inserts nothing and the last error
    is 5. *)
Definition desktop_rejecting : os :=
  {| GetSystemMetrics := GetSystemMetrics desktop;
     calloc_succeeds := true;
     SendInput_returns := fun _ => 0;
     GetLastError := 5 |}.

(** ** Fixed-width arithmetic *)

Lemma to_int_in_range (z : Z) :
  INT_MIN <= z <= INT_MAX -> to_int z = z.
Proof.
  unfold to_int, to_sint, INT_MIN, INT_MAX. intros Hz.
  change (2 ^ (32 - 1)) with 2147483648 in *.
  change (2 ^ 31) with 2147483648 in *.
  change (2 ^ 32) with 4294967296.
  rewrite Z.mod_small by lia. lia.
Qed.

Lemma to_int_to_DWORD (z : Z) : to_int (to_DWORD z) = to_int z.
Proof.
  unfold to_int, to_DWORD, to_sint, to_uint.
  now rewrite Z.add_mod_idemp_l by (compute; discriminate).
Qed.

Lemma to_DWORD_to_int (z : Z) : to_DWORD (to_int z) = to_DWORD z.
Proof.
  unfold to_int, to_DWORD, to_sint, to_uint.
  rewrite Zminus_mod_idemp_l. f_equal. lia.
Qed.

Lemma to_DWORD_scaled (z k : Z) :
  to_DWORD (to_int z * k) = to_DWORD (z * k).
Proof.
  pose proof (to_DWORD_to_int z) as H. unfold to_DWORD, to_uint in *.
  rewrite Z.mul_mod by (compute; discriminate). rewrite H.
  now rewrite <- Z.mul_mod by (compute; discriminate).
Qed.

Lemma to_DWORD_in_range (z : Z) :
  0 <= z < 2 ^ 32 -> to_DWORD z = z.
Proof. intros Hz. unfold to_DWORD, to_uint. now apply Z.mod_small. Qed.

Lemma to_uint16_t_nonneg (z : Z) : 0 <= to_uint16_t z < 65536.
Proof.
  unfold to_uint16_t, to_uint. change (2 ^ 16) with 65536.
  apply Z.mod_pos_bound. lia.
Qed.

(** ** [convert_to_relative_position] *)

Lemma int_div_positive (a s : Z) :
  0 < s -> int_div a s = Some (Z.quot a s).
Proof.
  intros Hs. unfold int_div.
  destruct (s =? 0) eqn:E0; [apply Z.eqb_eq in E0; lia|].
  destruct (s =? -1) eqn:E1; [apply Z.eqb_eq in E1; lia|].
  now rewrite andb_false_r.
Qed.

Lemma convert_to_relative_position_defined (c s : Z) :
  0 < s -> exists q, convert_to_relative_position c s = Some q.
Proof.
  intros Hs. unfold convert_to_relative_position.
  rewrite int_div_positive by assumption. eauto.
Qed.

Lemma convert_to_relative_position_zero (c : Z) :
  convert_to_relative_position c 0 = None.
Proof. reflexivity. Qed.

Lemma scaled_in_range (c : Z) :
  -32768 < c <= 32767 ->
  INT_MIN < c * MAX_WINDOWS_COORD_VALUE <= INT_MAX.
Proof.
  change MAX_WINDOWS_COORD_VALUE with 65536.
  unfold INT_MIN, INT_MAX. change (2 ^ 31) with 2147483648. lia.
Qed.

Lemma convert_positive (c s : Z) :
  0 < s -> 0 < c <= 32767 ->
  convert_to_relative_position c s = Some (c * 65536 / s + 1).
Proof.
  intros Hs Hc. unfold convert_to_relative_position.
  pose proof (scaled_in_range c ltac:(lia)) as Hr.
  rewrite to_int_in_range by lia.
  rewrite int_div_positive by assumption.
  change MAX_WINDOWS_COORD_VALUE with 65536 in *.
  destruct (0 <? c) eqn:E; [|apply Z.ltb_ge in E; lia].
  rewrite Z.quot_div_nonneg by lia.
  assert (0 <= c * 65536 / s <= c * 65536).
  { split; [apply Z.div_pos; lia|].
    apply Z.div_le_upper_bound; nia. }
  rewrite to_int_in_range; [reflexivity|].
  unfold INT_MIN, INT_MAX in *. change (2 ^ 31) with 2147483648 in *. lia.
Qed.

Lemma quot_negative (a s : Z) :
  0 < s -> a < 0 ->
  Z.quot a s = a / s + (if a mod s =? 0 then 0 else 1).
Proof.
  intros Hs Ha.
  replace a with (- (- a)) at 1 by lia.
  rewrite Z.quot_opp_l by lia.
  rewrite Z.quot_div_nonneg by lia.
  destruct (a mod s =? 0) eqn:E.
  - apply Z.eqb_eq in E. rewrite Z.div_opp_l_z by lia. lia.
  - apply Z.eqb_neq in E. rewrite Z.div_opp_l_nz by lia. lia.
Qed.

Lemma convert_negative (c s : Z) :
  0 < s -> -32768 < c < 0 ->
  convert_to_relative_position c s =
  Some (c * 65536 / s + (if (c * 65536) mod s =? 0 then 0 else 1) - 1).
Proof.
  intros Hs Hc. unfold convert_to_relative_position.
  pose proof (scaled_in_range c ltac:(lia)) as Hr.
  rewrite to_int_in_range by lia.
  rewrite int_div_positive by assumption.
  change MAX_WINDOWS_COORD_VALUE with 65536 in *.
  destruct (0 <? c) eqn:E; [apply Z.ltb_lt in E; lia|].
  rewrite quot_negative by lia.
  assert (c * 65536 <= c * 65536 / s).
  { apply Z.div_le_lower_bound; nia. }
  assert (c * 65536 / s < 0) by (apply Z.div_lt_upper_bound; lia).
  f_equal. rewrite to_int_in_range.
  - lia.
  - unfold INT_MIN, INT_MAX in *. change (2 ^ 31) with 2147483648 in *.
    destruct (_ =? 0); lia.
Qed.

(** C2, as stated, at the coordinate -1 on a screen of size 3: the code
    returns -21846, the floor of -65536/3 less one is -21847. *)
Lemma C2_floor_fails_below_zero :
  ~ (0 < 3 -> -1 < 0 ->
     convert_to_relative_position (-1) 3 = Some ((-1) * 65536 / 3 - 1)).
Proof.
  intros H. specialize (H ltac:(lia) ltac:(lia)).
  vm_compute in H. discriminate H.
Qed.

(** C2 (amended).  For a screen size [s > 0] and a coordinate [c] whose
    product with 65536 fits an [int] ([-32768 < c <= 32767]),
    [convert_to_relative_position] returns [floor(c*65536/s) + 1] when [c]
    is positive; when [c] is negative the C division rounds toward zero,
    so the result is [floor(c*65536/s) - 1] only if [s] divides
    [c*65536], and [floor(c*65536/s)] otherwise. *)
Theorem C2_convert_to_relative_position_value (c s : Z) :
  0 < s -> -32768 < c <= 32767 ->
  (0 < c ->
   convert_to_relative_position c s = Some (c * 65536 / s + 1)) /\
  (c < 0 ->
   convert_to_relative_position c s =
   Some (c * 65536 / s + (if (c * 65536) mod s =? 0 then 0 else 1) - 1)).
Proof.
  intros Hs Hc. split; intros Hsign.
  - apply convert_positive; lia.
  - apply convert_negative; lia.
Qed.

Lemma C2_value_on_1920_wide_screen :
  convert_to_relative_position 960 1920 = Some 32769 /\
  convert_to_relative_position (-1) 1920 = Some (-35).
Proof.
  destruct (C2_convert_to_relative_position_value 960 1920
              ltac:(lia) ltac:(lia)) as [Hpos _].
  destruct (C2_convert_to_relative_position_value (-1) 1920
              ltac:(lia) ltac:(lia)) as [_ Hneg].
  split.
  - exact (Hpos ltac:(lia)).
  - exact (Hneg ltac:(lia)).
Defined.

(** ** The runs of [hook_post_event], case group by case group *)

Lemma extend_key_loop_table (input : INPUT) :
  extend_key_loop extend_key_table input =
  if ki_wVk input =? VK_UP
  then or_ki_dwFlags KEYEVENTF_EXTENDEDKEY input
  else input.
Proof.
  unfold extend_key_table. cbn [extend_key_loop].
  destruct (ki_wVk input =? VK_UP) eqn:E; [|reflexivity].
  apply Z.eqb_eq in E.
  cbn [ki_wVk or_ki_dwFlags set_ki_dwFlags]. rewrite E. reflexivity.
Qed.


Ltac unfold_injector :=
  cbv [run hook_post_event prepare_input SendInput_log
       bind ret lift fault calloc logger SendInput untouched].
Ltac unfold_run := unfold run.
Ltac unfold_hook_post_event := unfold hook_post_event, bind.

Section Runs.

Variable MASK_SHIFT : Z.
Variable scancode_to_keycode : Z -> Z.

#[local] Abbreviation prepare_input :=
  (prepare_input MASK_SHIFT scancode_to_keycode).
#[local] Abbreviation hook_post_event :=
  (hook_post_event MASK_SHIFT scancode_to_keycode).
#[local] Abbreviation run := (run MASK_SHIFT scancode_to_keycode).
#[local] Abbreviation resolved_wVk := (resolved_wVk scancode_to_keycode).
#[local] Abbreviation extended_bit :=
  (extended_bit MASK_SHIFT scancode_to_keycode).
#[local] Abbreviation keyboard_input :=
  (keyboard_input MASK_SHIFT scancode_to_keycode).

Lemma prepare_keyboard (o : os) (event : uiohook_event) (sw sh : Z) (w : world) :
  is_keyboard_event (type event) = true ->
  calloc_succeeds o = true ->
  prepare_input o event sw sh w =
  Some (Some (key_record (resolved_wVk event) (extended_bit event)),
        {| log := log w ++
             (if resolved_wVk event =? 0
              then [(LOG_LEVEL_WARN,
                     Unable_to_lookup_scancode (keyboard_keycode event))]
              else []);
           sent := sent w |}).
Proof.
  intros Hty Halloc.
  assert (Hprep :
    (if negb (Z.land (mask event) MASK_SHIFT =? 0)
     then extend_key_loop extend_key_table (key_record (resolved_wVk event) 0)
     else key_record (resolved_wVk event) 0)
    = key_record (resolved_wVk event) (extended_bit event)).
  { unfold extended_bit. rewrite extend_key_loop_table. cbn [ki_wVk key_record].
    destruct (negb _); cbn [andb]; [|reflexivity].
    destruct (_ =? VK_UP); reflexivity. }
  unfold resolved_wVk in *.
  destruct event as [ty m kc b x y a r]; cbn [type mask keyboard_keycode] in *.
  destruct ty; try discriminate Hty; unfold_injector; rewrite Halloc;
    cbn [type mask keyboard_keycode ki_wVk set_ki_wVk set_ki_time
         set_ki_wScan set_input_type zeroed_INPUT];
    change (set_ki_wVk (to_WORD (scancode_to_keycode kc))
              (set_ki_time 0 (set_ki_wScan 0
                 (set_input_type INPUT_KEYBOARD zeroed_INPUT))))
      with (key_record (to_WORD (scancode_to_keycode kc)) 0);
    rewrite Hprep;
    destruct (to_WORD (scancode_to_keycode kc) =? 0);
    cbn [log sent]; rewrite ?app_nil_r; destruct w; reflexivity.
Qed.

Lemma prepare_mouse (o : os) (event : uiohook_event) (sw sh dx dy : Z)
      (w : world) :
  is_mouse_event (type event) = true ->
  calloc_succeeds o = true ->
  convert_to_relative_position (mouse_x event) sw = Some dx ->
  convert_to_relative_position (mouse_y event) sh = Some dy ->
  prepare_input o event sw sh w =
  Some (Some (mouse_record dx dy), w).
Proof.
  intros Hty Halloc Hx Hy.
  destruct event as [ty m kc b x y a r]; cbn [type mouse_x mouse_y] in *.
  destruct ty; try discriminate Hty; unfold_injector;
    rewrite Halloc; cbn [type mouse_x mouse_y]; rewrite Hx, Hy;
    reflexivity.
Qed.

Lemma prepare_mouse_faults (o : os) (event : uiohook_event) (sw sh : Z)
      (w : world) :
  is_mouse_event (type event) = true ->
  calloc_succeeds o = true ->
  sw = 0 \/ sh = 0 ->
  prepare_input o event sw sh w = None.
Proof.
  intros Hty Halloc Hzero.
  assert (Hconv :
    match convert_to_relative_position (mouse_x event) sw with
    | Some _ => convert_to_relative_position (mouse_y event) sh = None
    | None => True
    end).
  { destruct Hzero as [-> | ->]; [reflexivity|].
    now destruct (convert_to_relative_position (mouse_x event) sw). }
  destruct event as [ty m kc b x y a r]; cbn [type mouse_x mouse_y] in *.
  destruct ty; try discriminate Hty; unfold_injector;
    rewrite Halloc; cbn [type mouse_x mouse_y];
    destruct (convert_to_relative_position x sw);
    try reflexivity; rewrite Hconv; reflexivity.
Qed.

Lemma prepare_without_memory (o : os) (event : uiohook_event) (sw sh : Z)
      (w : world) :
  is_keyboard_event (type event) || is_mouse_event (type event) = true ->
  calloc_succeeds o = false ->
  prepare_input o event sw sh w =
  Some (None,
        {| log := log w ++ [(LOG_LEVEL_ERROR, failed_to_allocate_memory)];
           sent := sent w |}).
Proof.
  intros Hty Halloc.
  destruct event as [ty m kc b x y a r]; cbn [type] in *.
  destruct ty; try discriminate Hty; unfold_injector;
    rewrite Halloc; reflexivity.
Qed.

Lemma prepare_ignored (o : os) (event : uiohook_event) (sw sh : Z)
      (w : world) :
  is_ignored_event (type event) = true ->
  prepare_input o event sw sh w =
  Some (None, w).
Proof.
  intros Hty.
  destruct event as [ty m kc b x y a r]; cbn [type] in *.
  destruct ty; try discriminate Hty; reflexivity.
Qed.

Lemma prepare_other (o : os) (event : uiohook_event) (sw sh raw : Z)
      (w : world) :
  type event = EVENT_OTHER raw ->
  prepare_input o event sw sh w =
  Some (None,
        {| log := log w ++ [(LOG_LEVEL_WARN, Ignoring_post_event_type raw)];
           sent := sent w |}).
Proof.
  intros Hty. unfold prepare_input. rewrite Hty. reflexivity.
Qed.

Lemma hook_post_event_sends (o : os) (event : uiohook_event)
      (input : INPUT) (w w1 : world) :
  prepare_input o event
                (screen_width o) (screen_height o) w =
  Some (Some input, w1) ->
  hook_post_event o event w =
  Some (tt,
        {| log := log w1 ++ SendInput_log o (finish_input event input);
           sent := sent w1 ++ [finish_input event input] |}).
Proof.
  intros Hprep. unfold_hook_post_event.
  fold (screen_width o) (screen_height o). rewrite Hprep.
  unfold SendInput, SendInput_log, logger, ret.
  destruct (SendInput_returns o (finish_input event input) =? 0);
    cbn [log sent]; now rewrite ?app_nil_r.
Qed.

Lemma hook_post_event_skips (o : os) (event : uiohook_event)
      (w w1 : world) :
  prepare_input o event
                (screen_width o) (screen_height o) w =
  Some (None, w1) ->
  hook_post_event o event w = Some (tt, w1).
Proof.
  intros Hprep. unfold_hook_post_event.
  fold (screen_width o) (screen_height o). now rewrite Hprep.
Qed.

Lemma hook_post_event_faults (o : os) (event : uiohook_event) (w : world) :
  prepare_input o event
                (screen_width o) (screen_height o) w = None ->
  hook_post_event o event w = None.
Proof.
  intros Hprep. unfold_hook_post_event.
  fold (screen_width o) (screen_height o). now rewrite Hprep.
Qed.

Lemma finish_keyboard (event : uiohook_event) :
  is_keyboard_event (type event) = true ->
  finish_input event (key_record (resolved_wVk event) (extended_bit event))
  = keyboard_input event.
Proof.
  intros Hty. unfold keyboard_input, transition_bit, finish_input.
  destruct (type event); try discriminate Hty; reflexivity.
Qed.

Lemma run_keyboard_event (o : os) (event : uiohook_event) :
  is_keyboard_event (type event) = true ->
  calloc_succeeds o = true ->
  run o event =
  Some (tt,
        {| log :=
             (if resolved_wVk event =? 0
              then [(LOG_LEVEL_WARN,
                     Unable_to_lookup_scancode (keyboard_keycode event))]
              else [])
             ++ SendInput_log o (keyboard_input event);
           sent := [keyboard_input event] |}).
Proof.
  intros Hty Halloc. unfold_run.
  erewrite hook_post_event_sends
    by (apply prepare_keyboard; eassumption).
  now rewrite finish_keyboard.
Qed.

Lemma run_mouse_event (o : os) (event : uiohook_event) (dx dy : Z) :
  is_mouse_event (type event) = true ->
  calloc_succeeds o = true ->
  convert_to_relative_position (mouse_x event) (screen_width o) = Some dx ->
  convert_to_relative_position (mouse_y event) (screen_height o) = Some dy ->
  run o event =
  Some (tt,
        {| log := SendInput_log o (finish_input event (mouse_record dx dy));
           sent := [finish_input event (mouse_record dx dy)] |}).
Proof.
  intros Hty Halloc Hx Hy. unfold_run.
  erewrite hook_post_event_sends
    by (apply prepare_mouse; eassumption).
  reflexivity.
Qed.

(** ** Supporting facts *)

Lemma screen_size_positive (z : Z) :
  to_uint16_t z <> 0 -> 0 < to_uint16_t z.
Proof. pose proof (to_uint16_t_nonneg z). lia. Qed.

Lemma conversions_defined (o : os) (event : uiohook_event) :
  screen_width o <> 0 -> screen_height o <> 0 ->
  exists dx dy,
    convert_to_relative_position (mouse_x event) (screen_width o) = Some dx /\
    convert_to_relative_position (mouse_y event) (screen_height o) = Some dy.
Proof.
  intros Hw Hh.
  destruct (convert_to_relative_position_defined (mouse_x event)
              (screen_width o)) as [dx Hx];
    [now apply screen_size_positive|].
  destruct (convert_to_relative_position_defined (mouse_y event)
              (screen_height o)) as [dy Hy];
    [now apply screen_size_positive|].
  eauto.
Qed.

(** The extended-key flag of the submitted keyboard record is set exactly
    when the mask has a SHIFT bit and the virtual key is [VK_UP], the
    first entry of the table. *)
Lemma extended_key_flag_iff (event : uiohook_event) :
  has_flag (ki_dwFlags (keyboard_input event)) KEYEVENTF_EXTENDEDKEY = true
  <-> has_flag (mask event) MASK_SHIFT = true /\ resolved_wVk event = VK_UP.
Proof.
  unfold keyboard_input, extended_bit, transition_bit, has_flag.
  cbn [ki_dwFlags key_record].
  destruct (negb (Z.land (mask event) MASK_SHIFT =? 0)) eqn:Es; cbn [andb].
  - destruct (resolved_wVk event =? VK_UP) eqn:Eu.
    + apply Z.eqb_eq in Eu.
      split; [auto|]. intros _. now destruct (type event).
    + apply Z.eqb_neq in Eu.
      split; [|tauto]. intros H. now destruct (type event).
  - split; [|intros [H _]; discriminate H].
    intros H. now destruct (type event).
Qed.

(** ** The claims *)

(** C1 (the code departs from it).  A keyboard event whose mask has a
    SHIFT bit and whose keycode resolves to a key of the Extended Key
    Table other than [VK_UP] is submitted with the extended-key flag
    clear: the loop over the table stops at the first entry that differs
    from the key, which for these keys is entry 0. *)
Theorem C1_extended_key_flag_missing (o : os) (event : uiohook_event) :
  is_keyboard_event (type event) = true ->
  calloc_succeeds o = true ->
  has_flag (mask event) MASK_SHIFT = true ->
  In (resolved_wVk event) extend_key_table ->
  resolved_wVk event <> VK_UP ->
  exists input w,
    run o event = Some (tt, w) /\
    sent w = [input] /\
    ki_wVk input = resolved_wVk event /\
    has_flag (ki_dwFlags input) KEYEVENTF_EXTENDEDKEY = false.
Proof.
  intros Hty Halloc Hshift _ Hkey.
  exists (keyboard_input event). eexists.
  split; [now apply run_keyboard_event|].
  split; [reflexivity|]. split; [reflexivity|].
  apply not_true_is_false. intros Hflag.
  apply extended_key_flag_iff in Hflag. tauto.
Qed.

(** C3.  A keyboard event is submitted as one record whose key-transition
    part is [KEYEVENTF_KEYDOWN] and not [KEYEVENTF_KEYUP] for
    [EVENT_KEY_PRESSED], and [KEYEVENTF_KEYUP] and not [KEYEVENTF_KEYDOWN]
    for [EVENT_KEY_RELEASED]. *)
Theorem C3_key_transition_flag (o : os) (event : uiohook_event) :
  is_keyboard_event (type event) = true ->
  calloc_succeeds o = true ->
  exists input w,
    run o event = Some (tt, w) /\
    sent w = [input] /\
    (type event = EVENT_KEY_PRESSED ->
     key_transition input = KEYEVENTF_KEYDOWN /\
     key_transition input <> KEYEVENTF_KEYUP) /\
    (type event = EVENT_KEY_RELEASED ->
     key_transition input = KEYEVENTF_KEYUP /\
     key_transition input <> KEYEVENTF_KEYDOWN).
Proof.
  intros Hty Halloc.
  exists (keyboard_input event). eexists.
  split; [now apply run_keyboard_event|].
  split; [reflexivity|].
  unfold key_transition, keyboard_input, extended_bit, transition_bit.
  cbn [ki_dwFlags key_record].
  split; intros ->;
    destruct (negb (Z.land (mask event) MASK_SHIFT =? 0)
              && (resolved_wVk event =? VK_UP));
    (split; [reflexivity | discriminate]).
Qed.

(** C7.  A keyboard event whose keycode the resolver maps to 0 is still
    submitted, once, with a zero virtual key, and the call writes exactly
    one WARN entry, which carries the keycode of the event. *)
Theorem C7_unresolved_keycode (o : os) (event : uiohook_event) :
  is_keyboard_event (type event) = true ->
  scancode_to_keycode (keyboard_keycode event) = 0 ->
  calloc_succeeds o = true ->
  exists input w,
    run o event = Some (tt, w) /\
    sent w = [input] /\
    ki_wVk input = 0 /\
    filter is_WARN (log w) =
    [(LOG_LEVEL_WARN, Unable_to_lookup_scancode (keyboard_keycode event))].
Proof.
  intros Hty Hnull Halloc.
  assert (Hvk : resolved_wVk event = 0).
  { unfold resolved_wVk. now rewrite Hnull. }
  exists (keyboard_input event). eexists.
  split; [now apply run_keyboard_event|].
  split; [reflexivity|]. split; [exact Hvk|].
  cbn [log]. rewrite Hvk. cbn [Z.eqb app filter is_WARN fst].
  unfold SendInput_log. now destruct (_ =? 0).
Qed.

(** The flags and the auxiliary data a button event ends with. *)
Lemma finish_button (event : uiohook_event) (dx dy : Z) :
  type event = EVENT_MOUSE_PRESSED \/ type event = EVENT_MOUSE_RELEASED ->
  let input := finish_input event (mouse_record dx dy) in
  let b := mouse_button event in
  let t := type event in
  mi_dwFlags input =
    (if b =? MOUSE_BUTTON1 then Z.lor (x_transition t) (left_transition t)
     else if b =? MOUSE_BUTTON2 then Z.lor (x_transition t) (right_transition t)
     else if b =? MOUSE_BUTTON3 then Z.lor (x_transition t) (middle_transition t)
     else x_transition t) /\
  mi_mouseData input =
    (if (b =? MOUSE_BUTTON1) || (b =? MOUSE_BUTTON2) || (b =? MOUSE_BUTTON3)
     then 0
     else if b =? MOUSE_BUTTON4 then XBUTTON1
     else if b =? MOUSE_BUTTON5 then XBUTTON2
     else to_DWORD (to_int (b - 3))).
Proof.
  intros Hty. unfold finish_input.
  destruct Hty as [-> | ->]; cbv zeta;
    destruct (mouse_button event =? MOUSE_BUTTON1);
    [split; reflexivity| |split; reflexivity|];
    (destruct (mouse_button event =? MOUSE_BUTTON2);
     [split; reflexivity|]);
    (destruct (mouse_button event =? MOUSE_BUTTON3);
     [split; reflexivity|]);
    (destruct (mouse_button event =? MOUSE_BUTTON4);
     [split; reflexivity|]);
    (destruct (mouse_button event =? MOUSE_BUTTON5);
     split; reflexivity).
Qed.

(** C4.  A button event is submitted as one record in which the generic
    extra-button transition flag is set; button 1 adds the left-button
    flag, button 2 the right-button flag, button 3 the middle-button
    flag; button 4 leaves [XBUTTON1] in the auxiliary data, button 5
    [XBUTTON2], and every button above 5 its ordinal less 3. *)
Theorem C4_mouse_button_mapping (o : os) (event : uiohook_event) :
  type event = EVENT_MOUSE_PRESSED \/ type event = EVENT_MOUSE_RELEASED ->
  calloc_succeeds o = true ->
  screen_width o <> 0 -> screen_height o <> 0 ->
  exists input w,
    run o event = Some (tt, w) /\
    sent w = [input] /\
    has_flag (mi_dwFlags input) (x_transition (type event)) = true /\
    (mouse_button event = 1 ->
     mi_dwFlags input =
       Z.lor (x_transition (type event)) (left_transition (type event)) /\
     mi_mouseData input = 0) /\
    (mouse_button event = 2 ->
     mi_dwFlags input =
       Z.lor (x_transition (type event)) (right_transition (type event)) /\
     mi_mouseData input = 0) /\
    (mouse_button event = 3 ->
     mi_dwFlags input =
       Z.lor (x_transition (type event)) (middle_transition (type event)) /\
     mi_mouseData input = 0) /\
    (mouse_button event = 4 ->
     mi_dwFlags input = x_transition (type event) /\
     mi_mouseData input = XBUTTON1) /\
    (mouse_button event = 5 ->
     mi_dwFlags input = x_transition (type event) /\
     mi_mouseData input = XBUTTON2) /\
    (5 < mouse_button event <= 65535 ->
     mi_dwFlags input = x_transition (type event) /\
     mi_mouseData input = mouse_button event - 3).
Proof.
  intros Hty Halloc Hw Hh.
  destruct (conversions_defined o event Hw Hh) as (dx & dy & Hx & Hy).
  exists (finish_input event (mouse_record dx dy)). eexists.
  split.
  { eapply run_mouse_event; eauto. now destruct Hty as [-> | ->]. }
  split; [reflexivity|].
  destruct (finish_button event dx dy Hty) as [Hflags Hdata].
  cbv zeta in Hflags, Hdata. rewrite Hflags, Hdata. clear Hflags Hdata.
  split.
  { destruct Hty as [-> | ->];
      destruct (mouse_button event =? MOUSE_BUTTON1); [reflexivity| |reflexivity|];
      (destruct (mouse_button event =? MOUSE_BUTTON2); [reflexivity|]);
      (destruct (mouse_button event =? MOUSE_BUTTON3); reflexivity). }
  assert (Hlow : 3 < mouse_button event ->
                 (mouse_button event =? MOUSE_BUTTON1) = false /\
                 (mouse_button event =? MOUSE_BUTTON2) = false /\
                 (mouse_button event =? MOUSE_BUTTON3) = false).
  { intros Hb. unfold MOUSE_BUTTON1, MOUSE_BUTTON2, MOUSE_BUTTON3.
    repeat split; apply Z.eqb_neq; lia. }
  repeat apply conj; try (intros ->; split; reflexivity).
  intros Hb. destruct (Hlow ltac:(lia)) as (-> & -> & ->).
  assert (Hhigh : (mouse_button event =? MOUSE_BUTTON4) = false /\
                  (mouse_button event =? MOUSE_BUTTON5) = false).
  { unfold MOUSE_BUTTON4, MOUSE_BUTTON5. split; apply Z.eqb_neq; lia. }
  destruct Hhigh as (-> & ->). cbn [orb].
  split; [reflexivity|].
  rewrite to_int_in_range
    by (unfold INT_MIN, INT_MAX; change (2 ^ 31) with 2147483648; lia).
  apply to_DWORD_in_range. change (2 ^ 32) with 4294967296. lia.
Qed.

(** C5 (amended).  A wheel event is submitted as one record whose flags
    are the wheel-scroll flag and whose auxiliary data, a 32-bit field,
    holds [amount * rotation * WHEEL_DELTA] reduced modulo 2^32; read as
    a signed 32-bit amount it is the product itself whenever the product
    fits 32 bits. *)
Theorem C5_wheel_data (o : os) (event : uiohook_event) :
  type event = EVENT_MOUSE_WHEEL ->
  calloc_succeeds o = true ->
  screen_width o <> 0 -> screen_height o <> 0 ->
  exists input w,
    run o event = Some (tt, w) /\
    sent w = [input] /\
    mi_dwFlags input = MOUSEEVENTF_WHEEL /\
    mi_mouseData input =
      to_DWORD (wheel_amount event * wheel_rotation event * WHEEL_DELTA) /\
    (INT_MIN <= wheel_amount event * wheel_rotation event * WHEEL_DELTA
             <= INT_MAX ->
     signed_mouseData input =
     wheel_amount event * wheel_rotation event * WHEEL_DELTA).
Proof.
  intros Hty Halloc Hw Hh.
  destruct (conversions_defined o event Hw Hh) as (dx & dy & Hx & Hy).
  exists (finish_input event (mouse_record dx dy)). eexists.
  split; [eapply run_mouse_event; eauto; now rewrite Hty|].
  split; [reflexivity|].
  unfold finish_input, signed_mouseData. rewrite Hty.
  split; [reflexivity|].
  cbn [mi_mouseData set_mi_mouseData].
  rewrite to_DWORD_to_int, to_DWORD_scaled.
  split; [reflexivity|].
  intros Hfit. rewrite to_int_to_DWORD. now apply to_int_in_range.
Qed.

(** C6.  An event with one of the four ignored tags builds no record and
    leaves the world as it was; an event with any other unnamed tag
    builds no record, sends nothing and writes one WARN entry that
    carries the tag. *)
Theorem C6_ignored_and_unknown_tags
        (o : os) (event : uiohook_event) (w : world) :
  (is_ignored_event (type event) = true ->
   prepare_input o event (screen_width o) (screen_height o) w
   = Some (None, w) /\
   hook_post_event o event w = Some (tt, w)) /\
  (forall raw, type event = EVENT_OTHER raw ->
   hook_post_event o event w =
   Some (tt,
         {| log := log w ++ [(LOG_LEVEL_WARN, Ignoring_post_event_type raw)];
            sent := sent w |})).
Proof.
  split.
  - intros Hty. split; [now apply prepare_ignored|].
    apply hook_post_event_skips. now apply prepare_ignored.
  - intros raw Hty.
    apply hook_post_event_skips. now apply prepare_other.
Qed.

(** C8.  [convert_to_relative_position] has a result only for a screen
    size other than zero (and has one for every positive size), and
    [hook_post_event] divides by the screen extents as queried: a mouse
    event on a display whose width or height is zero ends in the division
    fault. *)
Theorem C8_no_zero_guard (o : os) (event : uiohook_event) (w : world) :
  is_mouse_event (type event) = true ->
  calloc_succeeds o = true ->
  screen_width o = 0 \/ screen_height o = 0 ->
  hook_post_event o event w = None /\
  (forall c, convert_to_relative_position c 0 = None) /\
  (forall c s q, convert_to_relative_position c s = Some q -> s <> 0) /\
  (forall c s, 0 < s -> exists q, convert_to_relative_position c s = Some q).
Proof.
  intros Hty Halloc Hzero.
  split; [|split; [|split]].
  - apply hook_post_event_faults. now apply prepare_mouse_faults.
  - exact convert_to_relative_position_zero.
  - intros c s q Hq ->. discriminate Hq.
  - exact convert_to_relative_position_defined.
Qed.

(** C9.  When [calloc] returns NULL for a keyboard or mouse event, the
    call writes one ERROR entry, sends nothing and returns. *)
Theorem C9_allocation_failure (o : os) (event : uiohook_event) (w : world) :
  is_keyboard_event (type event) || is_mouse_event (type event) = true ->
  calloc_succeeds o = false ->
  hook_post_event o event w =
  Some (tt,
        {| log := log w ++ [(LOG_LEVEL_ERROR, failed_to_allocate_memory)];
           sent := sent w |}).
Proof.
  intros Hty Halloc.
  apply hook_post_event_skips. now apply prepare_without_memory.
Qed.

(** A drag and a move with the same coordinates run alike. *)
Lemma drag_runs_as_move (o : os) (moved dragged : uiohook_event) (w : world) :
  type moved = EVENT_MOUSE_MOVED ->
  type dragged = EVENT_MOUSE_DRAGGED ->
  mouse_x dragged = mouse_x moved ->
  mouse_y dragged = mouse_y moved ->
  hook_post_event o dragged w = hook_post_event o moved w.
Proof.
  intros Hm Hd Hx Hy.
  destruct moved as [t1 m1 k1 b1 x1 y1 a1 r1].
  destruct dragged as [t2 m2 k2 b2 x2 y2 a2 r2].
  cbn [type mouse_x mouse_y] in *. subst.
  reflexivity.
Qed.

(** C10.  A move and a drag with the same coordinates, on the same
    display, run alike; when the record is allocated and the display has
    extents, each submits the one record whose flags are exactly
    [MOUSEEVENTF_ABSOLUTE | MOUSEEVENTF_MOVE] and whose coordinates are
    the normalized ones. *)
Theorem C10_drag_is_move (o : os) (moved dragged : uiohook_event) :
  type moved = EVENT_MOUSE_MOVED ->
  type dragged = EVENT_MOUSE_DRAGGED ->
  mouse_x dragged = mouse_x moved ->
  mouse_y dragged = mouse_y moved ->
  (forall w, hook_post_event o dragged w = hook_post_event o moved w) /\
  (calloc_succeeds o = true ->
   screen_width o <> 0 -> screen_height o <> 0 ->
   exists dx dy,
     convert_to_relative_position (mouse_x moved) (screen_width o) = Some dx /\
     convert_to_relative_position (mouse_y moved) (screen_height o) = Some dy /\
     run o moved =
     Some (tt, {| log := SendInput_log o (move_record dx dy);
                  sent := [move_record dx dy] |}) /\
     run o dragged =
     Some (tt, {| log := SendInput_log o (move_record dx dy);
                  sent := [move_record dx dy] |})).
Proof.
  intros Hm Hd Hx Hy.
  split; [intros w; now apply drag_runs_as_move|].
  intros Halloc Hw Hh.
  destruct (conversions_defined o moved Hw Hh) as (dx & dy & Hdx & Hdy).
  exists dx, dy. split; [exact Hdx|]. split; [exact Hdy|].
  assert (Hrun : run o moved =
                 Some (tt, {| log := SendInput_log o (move_record dx dy);
                              sent := [move_record dx dy] |})).
  { erewrite run_mouse_event by (eauto; now rewrite Hm).
    unfold finish_input. rewrite Hm. reflexivity. }
  split; [exact Hrun|].
  unfold_run. now rewrite (drag_runs_as_move o moved dragged).
Qed.

End Runs.

(** ** The claims on sample runs *)

Lemma C1_shift_down_arrow_not_extended :
  exists input w,
    run sample_MASK_SHIFT sample_resolver desktop
        (key_event EVENT_KEY_PRESSED 0x01 0xE050) = Some (tt, w) /\
    sent w = [input] /\
    ki_wVk input = VK_DOWN /\
    has_flag (ki_dwFlags input) KEYEVENTF_EXTENDEDKEY = false.
Proof.
  apply (C1_extended_key_flag_missing sample_MASK_SHIFT sample_resolver
           desktop (key_event EVENT_KEY_PRESSED 0x01 0xE050)).
  - reflexivity.
  - reflexivity.
  - reflexivity.
  - right; left; reflexivity.
  - vm_compute; lia.
Defined.

Lemma C3_release_of_A :
  exists input w,
    run sample_MASK_SHIFT sample_resolver desktop
        (key_event EVENT_KEY_RELEASED 0 0x001E) = Some (tt, w) /\
    sent w = [input] /\
    key_transition input = KEYEVENTF_KEYUP /\
    key_transition input <> KEYEVENTF_KEYDOWN.
Proof.
  destruct (C3_key_transition_flag sample_MASK_SHIFT sample_resolver
              desktop (key_event EVENT_KEY_RELEASED 0 0x001E)
              eq_refl eq_refl)
    as (input & w & Hrun & Hsent & _ & Hup).
  exists input, w. split; [exact Hrun|]. split; [exact Hsent|].
  exact (Hup eq_refl).
Defined.

Lemma C4_sixth_button_pressed :
  exists input w,
    run sample_MASK_SHIFT sample_resolver desktop
        (mouse_event EVENT_MOUSE_PRESSED 6 100 200) = Some (tt, w) /\
    sent w = [input] /\
    mi_dwFlags input = MOUSEEVENTF_XDOWN /\
    mi_mouseData input = 3.
Proof.
  destruct (C4_mouse_button_mapping sample_MASK_SHIFT sample_resolver
              desktop (mouse_event EVENT_MOUSE_PRESSED 6 100 200))
    as (input & w & Hrun & Hsent & _ & _ & _ & _ & _ & _ & Hsix).
  - left; reflexivity.
  - reflexivity.
  - vm_compute; lia.
  - vm_compute; lia.
  - exists input, w. split; [exact Hrun|]. split; [exact Hsent|].
    apply Hsix. simpl; lia.
Defined.

Lemma C5_one_notch_back_and_three_forward :
  (exists input w,
     run sample_MASK_SHIFT sample_resolver desktop (wheel_event 1 (-1))
     = Some (tt, w) /\
     sent w = [input] /\
     mi_dwFlags input = MOUSEEVENTF_WHEEL /\
     mi_mouseData input = 0xFFFFFF88 /\
     signed_mouseData input = -120) /\
  (exists input w,
     run sample_MASK_SHIFT sample_resolver desktop (wheel_event 3 1)
     = Some (tt, w) /\
     sent w = [input] /\
     mi_dwFlags input = MOUSEEVENTF_WHEEL /\
     mi_mouseData input = 360 /\
     signed_mouseData input = 360).
Proof.
  split.
  - destruct (C5_wheel_data sample_MASK_SHIFT sample_resolver desktop
                (wheel_event 1 (-1)))
      as (input & w & Hrun & Hsent & Hflags & Hdata & Hsigned).
    + reflexivity.
    + reflexivity.
    + vm_compute; lia.
    + vm_compute; lia.
    + exists input, w. repeat split; try assumption.
      apply Hsigned. vm_compute; split; discriminate.
  - destruct (C5_wheel_data sample_MASK_SHIFT sample_resolver desktop
                (wheel_event 3 1))
      as (input & w & Hrun & Hsent & Hflags & Hdata & Hsigned).
    + reflexivity.
    + reflexivity.
    + vm_compute; lia.
    + vm_compute; lia.
    + exists input, w. repeat split; try assumption.
      apply Hsigned. vm_compute; split; discriminate.
Defined.

(** C5, as stated, at the amount 65535 and the rotation 32767: the
    product with 120 does not fit the 32-bit field, which holds another
    value, whether it is read as signed or as unsigned. *)
Lemma C5_wheel_product_overflows :
  exists input w,
    run sample_MASK_SHIFT sample_resolver desktop (wheel_event 65535 32767)
    = Some (tt, w) /\
    sent w = [input] /\
    signed_mouseData input <> 65535 * 32767 * WHEEL_DELTA /\
    mi_mouseData input <> 65535 * 32767 * WHEEL_DELTA.
Proof.
  eexists. eexists. split; [vm_compute; reflexivity|].
  split; [reflexivity|]. split; vm_compute; discriminate.
Qed.

Lemma C6_typed_and_garbage_tags :
  hook_post_event sample_MASK_SHIFT sample_resolver desktop
    (key_event EVENT_KEY_TYPED 0 0x001E) untouched = Some (tt, untouched) /\
  hook_post_event sample_MASK_SHIFT sample_resolver desktop
    (key_event (EVENT_OTHER 0xFF) 0 0) untouched =
  Some (tt, {| log := [(LOG_LEVEL_WARN, Ignoring_post_event_type 0xFF)];
               sent := [] |}).
Proof.
  split.
  - apply (C6_ignored_and_unknown_tags sample_MASK_SHIFT sample_resolver
             desktop (key_event EVENT_KEY_TYPED 0 0x001E) untouched).
    reflexivity.
  - apply (C6_ignored_and_unknown_tags sample_MASK_SHIFT sample_resolver
             desktop (key_event (EVENT_OTHER 0xFF) 0 0) untouched).
    reflexivity.
Defined.

Lemma C7_unknown_key_released :
  exists input w,
    run sample_MASK_SHIFT sample_resolver desktop
        (key_event EVENT_KEY_RELEASED 0 0x0FFF) = Some (tt, w) /\
    sent w = [input] /\
    ki_wVk input = 0 /\
    filter is_WARN (log w) =
    [(LOG_LEVEL_WARN, Unable_to_lookup_scancode 0x0FFF)].
Proof.
  apply (C7_unresolved_keycode sample_MASK_SHIFT sample_resolver desktop
           (key_event EVENT_KEY_RELEASED 0 0x0FFF)).
  - reflexivity.
  - reflexivity.
  - reflexivity.
Defined.

Lemma C8_move_without_a_display :
  hook_post_event sample_MASK_SHIFT sample_resolver headless
    (mouse_event EVENT_MOUSE_MOVED 0 100 200) untouched = None.
Proof.
  apply (C8_no_zero_guard sample_MASK_SHIFT sample_resolver headless
           (mouse_event EVENT_MOUSE_MOVED 0 100 200) untouched).
  - reflexivity.
  - reflexivity.
  - left; reflexivity.
Defined.

Lemma C9_key_press_out_of_memory :
  hook_post_event sample_MASK_SHIFT sample_resolver desktop_out_of_memory
    (key_event EVENT_KEY_PRESSED 0 0x001E) untouched =
  Some (tt, {| log := [(LOG_LEVEL_ERROR, failed_to_allocate_memory)];
               sent := [] |}).
Proof.
  apply (C9_allocation_failure sample_MASK_SHIFT sample_resolver
           desktop_out_of_memory (key_event EVENT_KEY_PRESSED 0 0x001E)
           untouched).
  - reflexivity.
  - reflexivity.
Defined.

Lemma C10_move_and_drag_to_the_centre :
  run sample_MASK_SHIFT sample_resolver desktop
      (mouse_event EVENT_MOUSE_DRAGGED 1 960 540)
  = run sample_MASK_SHIFT sample_resolver desktop
      (mouse_event EVENT_MOUSE_MOVED 0 960 540) /\
  run sample_MASK_SHIFT sample_resolver desktop
      (mouse_event EVENT_MOUSE_DRAGGED 1 960 540)
  = Some (tt, {| log := []; sent := [move_record 32769 32769] |}).
Proof.
  destruct (C10_drag_is_move sample_MASK_SHIFT sample_resolver desktop
              (mouse_event EVENT_MOUSE_MOVED 0 960 540)
              (mouse_event EVENT_MOUSE_DRAGGED 1 960 540)
              eq_refl eq_refl eq_refl eq_refl) as [Hsame Hrecord].
  split; [exact (Hsame untouched)|].
  destruct Hrecord as (dx & dy & Hdx & Hdy & _ & Hrun).
  - reflexivity.
  - vm_compute; lia.
  - vm_compute; lia.
  - vm_compute in Hdx, Hdy.
    injection Hdx as <-. injection Hdy as <-. exact Hrun.
Defined.

(** ** Further properties of [convert_to_relative_position] *)

(** The value of the function on the coordinates an event can carry:
    the quotient rounded toward zero, moved one further from zero. *)
Lemma convert_in_range (c s : Z) :
  0 < s -> -32768 < c <= 32767 ->
  convert_to_relative_position c s =
  Some (Z.quot (c * 65536) s + (if 0 <? c then 1 else -1)).
Proof.
  intros Hs Hc.
  destruct (Z.lt_trichotomy c 0) as [Hneg | [-> | Hpos]].
  - rewrite convert_negative by lia.
    rewrite quot_negative by lia.
    destruct (0 <? c) eqn:E; [apply Z.ltb_lt in E; lia|].
    f_equal; lia.
  - cbn [Z.mul]. unfold convert_to_relative_position.
    cbn [Z.mul Z.ltb Z.compare].
    change (to_int 0) with 0. rewrite int_div_positive by assumption.
    rewrite Z.quot_0_l by lia. reflexivity.
  - rewrite convert_positive by lia.
    rewrite Z.quot_div_nonneg by lia.
    destruct (0 <? c) eqn:E; [reflexivity|apply Z.ltb_ge in E; lia].
Qed.

(** X1.  On a screen of at most 65535 pixels, the normalized value of a
    coordinate, multiplied by the screen size and divided by 65536 with
    rounding toward zero, is the coordinate again: the offset of one
    makes the normalization invertible. *)
Theorem X1_normalization_round_trip (c s n : Z) :
  0 < s <= 65535 -> -32768 < c <= 32767 ->
  convert_to_relative_position c s = Some n ->
  Z.quot (n * s) MAX_WINDOWS_COORD_VALUE = c.
Proof.
  intros Hs Hc Hn. change MAX_WINDOWS_COORD_VALUE with 65536.
  assert (Hpos : forall c', 0 < c' <= 32767 ->
            ((c' * 65536 / s + 1) * s) / 65536 = c').
  { intros c' Hc'.
    pose proof (Z.div_mod (c' * 65536) s ltac:(lia)) as Hdm.
    pose proof (Z.mod_pos_bound (c' * 65536) s ltac:(lia)) as Hmod.
    symmetry. apply (Z.div_unique _ _ _
      ((c' * 65536 / s + 1) * s - c' * 65536)); nia. }
  destruct (Z.lt_trichotomy c 0) as [Hneg | [-> | Hp]].
  - rewrite convert_in_range in Hn by lia.
    destruct (0 <? c) eqn:E; [apply Z.ltb_lt in E; lia|].
    injection Hn as <-.
    replace (c * 65536) with (- ((- c) * 65536)) by lia.
    rewrite (Z.quot_opp_l (- c * 65536) s) by lia.
    rewrite (Z.quot_div_nonneg (- c * 65536) s) by lia.
    replace ((- ((- c * 65536) / s) + -1) * s)
      with (- (((- c * 65536) / s + 1) * s)) by lia.
    rewrite Z.quot_opp_l by lia.
    rewrite Z.quot_div_nonneg.
    + rewrite Hpos by lia. lia.
    + assert (0 <= - c * 65536 / s) by (apply Z.div_pos; lia). nia.
    + lia.
  - rewrite convert_in_range in Hn by lia. cbn in Hn.
    try rewrite Z.quot_0_l in Hn by lia. injection Hn as <-.
    replace (-1 * s) with (- s) by lia.
    rewrite Z.quot_opp_l by lia. rewrite Z.quot_small by lia. reflexivity.
  - rewrite convert_positive in Hn by lia. injection Hn as <-.
    rewrite Z.quot_div_nonneg.
    + apply Hpos. lia.
    + assert (0 <= c * 65536 / s) by (apply Z.div_pos; lia). nia.
    + lia.
Qed.

(** X3.  The normalization is odd: the mirror image of a coordinate
    other than zero has the opposite normalized value. *)
Theorem X3_normalization_odd (c s : Z) :
  0 < s -> -32768 < c < 32768 -> c <> 0 ->
  convert_to_relative_position (- c) s =
  option_map Z.opp (convert_to_relative_position c s).
Proof.
  intros Hs Hc Hnz.
  rewrite !convert_in_range by lia. cbn [option_map]. f_equal.
  replace (- c * 65536) with (- (c * 65536)) by lia.
  rewrite Z.quot_opp_l by lia.
  destruct (0 <? c) eqn:E1; destruct (0 <? - c) eqn:E2;
    try apply Z.ltb_lt in E1; try apply Z.ltb_lt in E2;
    try apply Z.ltb_ge in E1; try apply Z.ltb_ge in E2; lia.
Qed.

(** X4.  The normalized value is never zero and has the sign of the
    coordinate, zero counting as negative: the coordinate 0 gives -1. *)
Theorem X4_normalization_sign (c s : Z) :
  0 < s -> -32768 < c <= 32767 ->
  exists n, convert_to_relative_position c s = Some n /\
    (0 < c -> 1 <= n) /\ (c <= 0 -> n <= -1) /\ (c = 0 -> n = -1).
Proof.
  intros Hs Hc. rewrite convert_in_range by lia. eexists. split; [reflexivity|].
  destruct (0 <? c) eqn:E; [apply Z.ltb_lt in E | apply Z.ltb_ge in E].
  - assert (0 <= Z.quot (c * 65536) s) by (apply Z.quot_pos; lia).
    repeat split; lia.
  - assert (Z.quot (c * 65536) s <= 0).
    { replace (c * 65536) with (- (- c * 65536)) by lia.
      rewrite Z.quot_opp_l by lia.
      assert (0 <= Z.quot (- c * 65536) s) by (apply Z.quot_pos; lia). lia. }
    repeat split; try lia. intros ->. rewrite Z.quot_0_l by lia. reflexivity.
Qed.

(** Truncated quotients of numerators a divisor apart, on the same side
    of zero, are at least one apart. *)
Lemma quot_step (a1 a2 s : Z) :
  0 < s -> a1 + s <= a2 -> 0 <= a1 \/ a2 <= 0 ->
  Z.quot a1 s + 1 <= Z.quot a2 s.
Proof.
  intros Hs Hstep [Hpos | Hneg].
  - rewrite !Z.quot_div_nonneg by lia.
    replace (a1 / s + 1) with ((a1 + 1 * s) / s)
      by (rewrite Z.div_add by lia; reflexivity).
    apply Z.div_le_mono; lia.
  - assert (H1 : Z.quot a1 s = - ((- a1) / s)).
    { rewrite <- (Z.quot_div_nonneg (- a1) s) by lia.
      rewrite Z.quot_opp_l by lia. lia. }
    assert (H2 : Z.quot a2 s = - ((- a2) / s)).
    { rewrite <- (Z.quot_div_nonneg (- a2) s) by lia.
      rewrite Z.quot_opp_l by lia. lia. }
    rewrite H1, H2.
    assert ((- a2) / s + 1 <= (- a1) / s); [|lia].
    replace (- a2 / s + 1) with ((- a2 + 1 * s) / s)
      by (rewrite Z.div_add by lia; reflexivity).
    apply Z.div_le_mono; lia.
Qed.

(** X2.  The normalization keeps the order of coordinates, and on a
    screen of at most 65535 pixels it keeps distinct coordinates
    apart. *)
Theorem X2_normalization_monotone (c1 c2 s n1 n2 : Z) :
  0 < s -> -32768 < c1 -> c1 <= c2 -> c2 <= 32767 ->
  convert_to_relative_position c1 s = Some n1 ->
  convert_to_relative_position c2 s = Some n2 ->
  n1 <= n2 /\ (s <= 65535 -> c1 < c2 -> n1 < n2).
Proof.
  intros Hs H1 H12 H2 Hn1 Hn2.
  rewrite convert_in_range in Hn1, Hn2 by lia.
  injection Hn1 as <-. injection Hn2 as <-.
  assert (Hq : Z.quot (c1 * 65536) s <= Z.quot (c2 * 65536) s)
    by (apply Z.quot_le_mono; lia).
  destruct (0 <? c1) eqn:E1; destruct (0 <? c2) eqn:E2;
    try apply Z.ltb_lt in E1; try apply Z.ltb_lt in E2;
    try apply Z.ltb_ge in E1; try apply Z.ltb_ge in E2;
    try lia; (split; [lia|]); intros Hs' Hlt.
  - pose proof (quot_step (c1 * 65536) (c2 * 65536) s Hs
                  ltac:(lia) ltac:(lia)). lia.
  - pose proof (quot_step (c1 * 65536) (c2 * 65536) s Hs
                  ltac:(lia) ltac:(lia)). lia.
Qed.

(** X5.  A positive coordinate inside a screen of at most 65535 pixels
    is normalized into the absolute coordinate space, between 2 and
    65535. *)
Theorem X5_on_screen_range (c s : Z) :
  0 < c < s -> s <= 65535 -> c <= 32767 ->
  exists n, convert_to_relative_position c s = Some n /\ 2 <= n <= 65535.
Proof.
  intros Hc Hs Hc'. rewrite convert_positive by lia.
  eexists. split; [reflexivity|].
  assert (1 <= c * 65536 / s) by (apply Z.div_le_lower_bound; lia).
  assert (c * 65536 / s < 65535) by (apply Z.div_lt_upper_bound; lia).
  lia.
Qed.

(** ** Further properties of [hook_post_event] *)

Lemma event_type_cases (t : event_type) :
  is_keyboard_event t = true \/ is_mouse_event t = true \/
  is_ignored_event t = true \/ exists raw, t = EVENT_OTHER raw.
Proof. destruct t; cbn; eauto. Qed.

Lemma after_untouched (d : world) : after untouched d = d.
Proof. now destruct d. Qed.

Ltac frame_done :=
  unfold after, untouched; cbn [log sent app];
  rewrite ?app_nil_r, <- ?app_assoc; reflexivity.

Section Further.

Variable MASK_SHIFT : Z.
Variable scancode_to_keycode : Z -> Z.

#[local] Abbreviation prepare_input :=
  (prepare_input MASK_SHIFT scancode_to_keycode).
#[local] Abbreviation hook_post_event :=
  (hook_post_event MASK_SHIFT scancode_to_keycode).
#[local] Abbreviation run := (run MASK_SHIFT scancode_to_keycode).
#[local] Abbreviation resolved_wVk := (resolved_wVk scancode_to_keycode).
#[local] Abbreviation extended_bit :=
  (extended_bit MASK_SHIFT scancode_to_keycode).
#[local] Abbreviation keyboard_input :=
  (keyboard_input MASK_SHIFT scancode_to_keycode).

(** The first [switch] on a mouse event whose record is allocated. *)
Lemma prepare_mouse_allocated (o : os) (event : uiohook_event) (sw sh : Z)
      (w : world) :
  is_mouse_event (type event) = true ->
  calloc_succeeds o = true ->
  prepare_input o event sw sh w =
  match convert_to_relative_position (mouse_x event) sw,
        convert_to_relative_position (mouse_y event) sh with
  | Some dx, Some dy => Some (Some (mouse_record dx dy), w)
  | _, _ => None
  end.
Proof.
  intros Hty Halloc.
  destruct event as [ty m kc b x y a r]; cbn [type mouse_x mouse_y] in *.
  destruct ty; try discriminate Hty; unfold_injector;
    rewrite Halloc; cbn [type mouse_x mouse_y];
    destruct (convert_to_relative_position x sw);
    try reflexivity;
    destruct (convert_to_relative_position y sh); reflexivity.
Qed.

(** Every outcome of the first [switch], from any state. *)
Lemma prepare_input_frame (o : os) (event : uiohook_event) (sw sh : Z)
      (w : world) :
  prepare_input o event sw sh w =
  match prepare_input o event sw sh untouched with
  | Some (r, d) => Some (r, after w d)
  | None => None
  end.
Proof.
  assert (Hw : after w untouched = w).
  { destruct w. unfold after. cbn. now rewrite !app_nil_r. }
  destruct (event_type_cases (type event)) as [Hk | [Hm | [Hi | [raw Hr]]]].
  - destruct (calloc_succeeds o) eqn:Halloc.
    + rewrite !prepare_keyboard by assumption. frame_done.
    + rewrite !prepare_without_memory by (try assumption; now rewrite Hk).
      frame_done.
  - destruct (calloc_succeeds o) eqn:Halloc.
    + rewrite !prepare_mouse_allocated by assumption.
      destruct (convert_to_relative_position (mouse_x event) sw);
        [|reflexivity].
      destruct (convert_to_relative_position (mouse_y event) sh);
        [|reflexivity].
      now rewrite Hw.
    + rewrite !prepare_without_memory
        by (try assumption; rewrite Hm; apply orb_true_r).
      frame_done.
  - rewrite !prepare_ignored by assumption. now rewrite Hw.
  - rewrite !(prepare_other _ _ _ _ _ _ raw) by assumption. frame_done.
Qed.

(** A call from any state adds to it what the call adds to the empty
    state. *)
Lemma hook_post_event_frame (o : os) (event : uiohook_event) (w : world) :
  hook_post_event o event w =
  match run o event with
  | Some (u, d) => Some (u, after w d)
  | None => None
  end.
Proof.
  unfold_run. unfold_hook_post_event.
  rewrite (prepare_input_frame o event _ _ w).
  destruct (prepare_input o event _ _ untouched) as [[[input|] d]|];
    [| |reflexivity].
  - unfold SendInput, logger, ret, after. cbn [log sent].
    destruct (SendInput_returns o (finish_input event input) =? 0);
      frame_done.
  - reflexivity.
Qed.


(** The runs the earlier case lemmas leave out. *)
Lemma run_mouse_allocated (o : os) (event : uiohook_event) :
  is_mouse_event (type event) = true ->
  calloc_succeeds o = true ->
  run o event =
  match convert_to_relative_position (mouse_x event) (screen_width o),
        convert_to_relative_position (mouse_y event) (screen_height o) with
  | Some dx, Some dy =>
      Some (tt,
            {| log := SendInput_log o (finish_input event (mouse_record dx dy));
               sent := [finish_input event (mouse_record dx dy)] |})
  | _, _ => None
  end.
Proof.
  intros Hty Halloc.
  destruct (convert_to_relative_position (mouse_x event) (screen_width o))
    as [dx|] eqn:Hx;
    [destruct (convert_to_relative_position (mouse_y event) (screen_height o))
       as [dy|] eqn:Hy|].
  - now apply run_mouse_event.
  - unfold_run. apply hook_post_event_faults.
    rewrite prepare_mouse_allocated by assumption. now rewrite Hx, Hy.
  - unfold_run. apply hook_post_event_faults.
    rewrite prepare_mouse_allocated by assumption. now rewrite Hx.
Qed.

Lemma run_without_memory (o : os) (event : uiohook_event) :
  is_keyboard_event (type event) || is_mouse_event (type event) = true ->
  calloc_succeeds o = false ->
  run o event =
  Some (tt, {| log := [(LOG_LEVEL_ERROR, failed_to_allocate_memory)];
               sent := [] |}).
Proof.
  intros Hty Halloc. unfold_run.
  erewrite hook_post_event_skips
    by (apply prepare_without_memory; eassumption).
  reflexivity.
Qed.

Lemma run_ignored (o : os) (event : uiohook_event) :
  is_ignored_event (type event) = true ->
  run o event = Some (tt, untouched).
Proof.
  intros Hty. unfold_run. apply hook_post_event_skips.
  now apply prepare_ignored.
Qed.

Lemma run_other (o : os) (event : uiohook_event) (raw : Z) :
  type event = EVENT_OTHER raw ->
  run o event =
  Some (tt, {| log := [(LOG_LEVEL_WARN, Ignoring_post_event_type raw)];
               sent := [] |}).
Proof.
  intros Hty. unfold_run.
  erewrite hook_post_event_skips by (apply prepare_other; eassumption).
  reflexivity.
Qed.

Lemma conversion_of_extent (c s : Z) :
  0 <= s ->
  convert_to_relative_position c s = None <-> s = 0.
Proof.
  intros Hs. split.
  - intros Hnone. destruct (Z.eq_dec s 0) as [|Hnz]; [assumption|].
    destruct (convert_to_relative_position_defined c s ltac:(lia)) as [q Hq].
    congruence.
  - intros ->. reflexivity.
Qed.

Lemma SendInput_log_length (o : os) (input : INPUT) :
  (length (SendInput_log o input) <= 1)%nat.
Proof. unfold SendInput_log. destruct (_ =? 0); cbn; lia. Qed.

(** X7.  A call that returns has kept the earlier log entries and sent
    records, has handed at most one record to [SendInput] and has
    written at most two log entries. *)
Theorem X7_at_most_one_record (o : os) (event : uiohook_event) (w w' : world) :
  hook_post_event o event w = Some (tt, w') ->
  exists d,
    w' = after w d /\
    (length (sent d) <= 1)%nat /\
    (length (log d) <= 2)%nat.
Proof.
  rewrite hook_post_event_frame.
  destruct (run o event) as [[[] d]|] eqn:Hrun; [|discriminate].
  intros [= <-]. exists d. split; [reflexivity|].
  destruct (event_type_cases (type event)) as [Hk | [Hm | [Hi | [raw Hr]]]].
  - destruct (calloc_succeeds o) eqn:Halloc.
    + rewrite run_keyboard_event in Hrun by assumption.
      injection Hrun as <-. cbn [log sent length]. split; [lia|].
      rewrite length_app.
      pose proof (SendInput_log_length o (keyboard_input event)).
      unfold log_entry in *.
      destruct (resolved_wVk event =? 0); cbn [length]; lia.
    + rewrite run_without_memory in Hrun
        by (try assumption; now rewrite Hk).
      injection Hrun as <-. cbn. lia.
  - destruct (calloc_succeeds o) eqn:Halloc.
    + rewrite run_mouse_allocated in Hrun by assumption.
      destruct (convert_to_relative_position (mouse_x event) _) as [dx|];
        [|discriminate].
      destruct (convert_to_relative_position (mouse_y event) _) as [dy|];
        [|discriminate].
      injection Hrun as <-. cbn [log sent length]. split; [lia|].
      pose proof (SendInput_log_length o
                    (finish_input event (mouse_record dx dy))).
      unfold log_entry in *. lia.
    + rewrite run_without_memory in Hrun
        by (try assumption; rewrite Hm; apply orb_true_r).
      injection Hrun as <-. cbn. lia.
  - rewrite run_ignored in Hrun by assumption.
    injection Hrun as <-. cbn. lia.
  - rewrite (run_other o event raw) in Hrun by assumption.
    injection Hrun as <-. cbn. lia.
Qed.

(** X8.  A call ends in the division fault exactly when the event is one
    of the five mouse events that build a record, the record is
    allocated, and the width or the height held in the 16-bit locals is
    zero. *)
Theorem X8_fault_iff_zero_extent (o : os) (event : uiohook_event) (w : world) :
  hook_post_event o event w = None <->
  is_mouse_event (type event) = true /\
  calloc_succeeds o = true /\
  (screen_width o = 0 \/ screen_height o = 0).
Proof.
  rewrite hook_post_event_frame.
  assert (Hsw : 0 <= screen_width o) by apply to_uint16_t_nonneg.
  assert (Hsh : 0 <= screen_height o) by apply to_uint16_t_nonneg.
  split.
  - intros Hnone.
    destruct (event_type_cases (type event)) as [Hk | [Hm | [Hi | [raw Hr]]]].
    + destruct (calloc_succeeds o) eqn:Halloc.
      * rewrite run_keyboard_event in Hnone by assumption. discriminate.
      * rewrite run_without_memory in Hnone
          by (try assumption; now rewrite Hk). discriminate.
    + destruct (calloc_succeeds o) eqn:Halloc.
      * split; [assumption|]. split; [reflexivity|].
        rewrite run_mouse_allocated in Hnone by assumption.
        destruct (convert_to_relative_position (mouse_x event) _)
          as [dx|] eqn:Hx;
          [|left; now apply (conversion_of_extent (mouse_x event))].
        destruct (convert_to_relative_position (mouse_y event) _)
          as [dy|] eqn:Hy;
          [discriminate|right; now apply (conversion_of_extent (mouse_y event))].
      * rewrite run_without_memory in Hnone
          by (try assumption; rewrite Hm; apply orb_true_r). discriminate.
    + rewrite run_ignored in Hnone by assumption. discriminate.
    + rewrite (run_other o event raw) in Hnone by assumption. discriminate.
  - intros (Hm & Halloc & Hzero).
    rewrite run_mouse_allocated by assumption.
    destruct Hzero as [-> | ->]; [reflexivity|].
    now destruct (convert_to_relative_position (mouse_x event) _).
Qed.

(** X9.  When a record has been sent, the ERROR entries of the call are
    the single entry carrying [GetLastError] if [SendInput] returned 0,
    and none otherwise; the record is not sent again. *)
Theorem X9_SendInput_failure_logged_once (o : os) (event : uiohook_event)
        (d : world) (input : INPUT) :
  run o event = Some (tt, d) ->
  sent d = [input] ->
  filter is_ERROR (log d) =
  if SendInput_returns o input =? 0
  then [(LOG_LEVEL_ERROR, SendInput_failed (GetLastError o))]
  else [].
Proof.
  intros Hrun Hsent.
  assert (Hlog : forall i, filter is_ERROR (SendInput_log o i) =
                           SendInput_log o i).
  { intros i. unfold SendInput_log. now destruct (_ =? 0). }
  destruct (event_type_cases (type event)) as [Hk | [Hm | [Hi | [raw Hr]]]].
  - destruct (calloc_succeeds o) eqn:Halloc.
    + rewrite run_keyboard_event in Hrun by assumption.
      injection Hrun as <-. cbn [log sent] in *. injection Hsent as <-.
      rewrite filter_app, Hlog.
      now destruct (resolved_wVk event =? 0).
    + rewrite run_without_memory in Hrun
        by (try assumption; now rewrite Hk).
      injection Hrun as <-. discriminate Hsent.
  - destruct (calloc_succeeds o) eqn:Halloc.
    + rewrite run_mouse_allocated in Hrun by assumption.
      destruct (convert_to_relative_position (mouse_x event) _) as [dx|];
        [|discriminate].
      destruct (convert_to_relative_position (mouse_y event) _) as [dy|];
        [|discriminate].
      injection Hrun as <-. cbn [log sent] in *. injection Hsent as <-.
      apply Hlog.
    + rewrite run_without_memory in Hrun
        by (try assumption; rewrite Hm; apply orb_true_r).
      injection Hrun as <-. discriminate Hsent.
  - rewrite run_ignored in Hrun by assumption.
    injection Hrun as <-. discriminate Hsent.
  - rewrite (run_other o event raw) in Hrun by assumption.
    injection Hrun as <-. discriminate Hsent.
Qed.

(** X10.  The lookup warning is decided on the resolver's result cut to
    a WORD: a keyboard event writes the WARN entry when that result is a
    multiple of 65536, and no WARN entry otherwise. *)
Theorem X10_warn_iff_key_word_zero (o : os) (event : uiohook_event) :
  is_keyboard_event (type event) = true ->
  calloc_succeeds o = true ->
  exists d,
    run o event = Some (tt, d) /\
    (scancode_to_keycode (keyboard_keycode event) mod 65536 <> 0 ->
     filter is_WARN (log d) = []) /\
    (scancode_to_keycode (keyboard_keycode event) mod 65536 = 0 ->
     filter is_WARN (log d) =
     [(LOG_LEVEL_WARN, Unable_to_lookup_scancode (keyboard_keycode event))]).
Proof.
  intros Hty Halloc. rewrite run_keyboard_event by assumption.
  eexists. split; [reflexivity|].
  cbn [log]. rewrite filter_app.
  assert (Hno : filter is_WARN (SendInput_log o (keyboard_input event)) = []).
  { unfold SendInput_log. now destruct (_ =? 0). }
  unfold log_entry in *. rewrite Hno, app_nil_r.
  change (resolved_wVk event)
    with (scancode_to_keycode (keyboard_keycode event) mod 65536).
  split; intros Hkey.
  - apply Z.eqb_neq in Hkey. now rewrite Hkey.
  - apply Z.eqb_eq in Hkey. now rewrite Hkey.
Qed.


(** X12.  The extended-key flag is set only for an event whose mask has
    a SHIFT bit and whose key is in the table, and it is set when the
    mask has a SHIFT bit and the key is [VK_UP]. *)
Theorem X12_extended_flag_sound (o : os) (event : uiohook_event) :
  is_keyboard_event (type event) = true ->
  calloc_succeeds o = true ->
  exists input d,
    run o event = Some (tt, d) /\
    sent d = [input] /\
    (has_flag (ki_dwFlags input) KEYEVENTF_EXTENDEDKEY = true ->
     has_flag (mask event) MASK_SHIFT = true /\
     In (ki_wVk input) extend_key_table) /\
    (has_flag (mask event) MASK_SHIFT = true ->
     ki_wVk input = VK_UP ->
     has_flag (ki_dwFlags input) KEYEVENTF_EXTENDEDKEY = true).
Proof.
  intros Hty Halloc.
  exists (keyboard_input event). eexists.
  split; [now apply run_keyboard_event|].
  split; [reflexivity|].
  change (ki_wVk (keyboard_input event)) with (resolved_wVk event).
  split.
  - intros Hflag. apply extended_key_flag_iff in Hflag.
    destruct Hflag as [Hshift ->]. split; [exact Hshift|]. now left.
  - intros Hshift Hup. apply extended_key_flag_iff. now split.
Qed.

(** X13.  The record of a button or wheel event holds the normalized
    coordinates of the event, but neither [MOUSEEVENTF_MOVE] nor
    [MOUSEEVENTF_ABSOLUTE] is among its flags. *)
Theorem X13_buttons_and_wheel_do_not_move (o : os) (event : uiohook_event) :
  type event = EVENT_MOUSE_PRESSED \/ type event = EVENT_MOUSE_RELEASED \/
  type event = EVENT_MOUSE_WHEEL ->
  calloc_succeeds o = true ->
  screen_width o <> 0 -> screen_height o <> 0 ->
  exists input d,
    run o event = Some (tt, d) /\
    sent d = [input] /\
    input_type input = INPUT_MOUSE /\
    convert_to_relative_position (mouse_x event) (screen_width o)
    = Some (mi_dx input) /\
    convert_to_relative_position (mouse_y event) (screen_height o)
    = Some (mi_dy input) /\
    has_flag (mi_dwFlags input) MOUSEEVENTF_MOVE = false /\
    has_flag (mi_dwFlags input) MOUSEEVENTF_ABSOLUTE = false.
Proof.
  intros Hty Halloc Hw Hh.
  destruct (conversions_defined o event Hw Hh) as (dx & dy & Hx & Hy).
  exists (finish_input event (mouse_record dx dy)). eexists.
  split.
  { eapply run_mouse_event; eauto. now destruct Hty as [-> | [-> | ->]]. }
  split; [reflexivity|]. rewrite Hx, Hy.
  destruct Hty as [Hty | [Hty | Hty]].
  - destruct (finish_button event dx dy (or_introl Hty)) as [Hflags _].
    cbv zeta in Hflags. rewrite Hflags. clear Hflags.
    unfold finish_input. rewrite Hty.
    destruct (mouse_button event =? MOUSE_BUTTON1);
      [repeat split; reflexivity|].
    destruct (mouse_button event =? MOUSE_BUTTON2);
      [repeat split; reflexivity|].
    destruct (mouse_button event =? MOUSE_BUTTON3);
      [repeat split; reflexivity|].
    destruct (mouse_button event =? MOUSE_BUTTON4);
      [repeat split; reflexivity|].
    destruct (mouse_button event =? MOUSE_BUTTON5);
      repeat split; reflexivity.
  - destruct (finish_button event dx dy (or_intror Hty)) as [Hflags _].
    cbv zeta in Hflags. rewrite Hflags. clear Hflags.
    unfold finish_input. rewrite Hty.
    destruct (mouse_button event =? MOUSE_BUTTON1);
      [repeat split; reflexivity|].
    destruct (mouse_button event =? MOUSE_BUTTON2);
      [repeat split; reflexivity|].
    destruct (mouse_button event =? MOUSE_BUTTON3);
      [repeat split; reflexivity|].
    destruct (mouse_button event =? MOUSE_BUTTON4);
      [repeat split; reflexivity|].
    destruct (mouse_button event =? MOUSE_BUTTON5);
      repeat split; reflexivity.
  - unfold finish_input. rewrite Hty. repeat split; reflexivity.
Qed.

(** X14.  The release of a button mirrors its press: for the same button
    and coordinates the two records have the same coordinates and
    auxiliary data, and each up flag of the release is the down flag of
    the press shifted left by one bit. *)
Theorem X14_release_mirrors_press (o : os) (pressed released : uiohook_event) :
  type pressed = EVENT_MOUSE_PRESSED ->
  type released = EVENT_MOUSE_RELEASED ->
  mouse_button released = mouse_button pressed ->
  mouse_x released = mouse_x pressed ->
  mouse_y released = mouse_y pressed ->
  calloc_succeeds o = true ->
  screen_width o <> 0 -> screen_height o <> 0 ->
  exists down up d1 d2,
    run o pressed = Some (tt, d1) /\ sent d1 = [down] /\
    run o released = Some (tt, d2) /\ sent d2 = [up] /\
    mi_dwFlags up = 2 * mi_dwFlags down /\
    mi_mouseData up = mi_mouseData down /\
    mi_dx up = mi_dx down /\ mi_dy up = mi_dy down.
Proof.
  intros Hp Hr Hb Hx Hy Halloc Hw Hh.
  destruct (conversions_defined o pressed Hw Hh) as (dx & dy & Hdx & Hdy).
  exists (finish_input pressed (mouse_record dx dy)),
         (finish_input released (mouse_record dx dy)).
  eexists. eexists.
  split; [eapply run_mouse_event; eauto; now rewrite Hp|].
  split; [reflexivity|].
  split.
  { apply run_mouse_event;
      [now rewrite Hr | assumption
      | rewrite Hx; exact Hdx | rewrite Hy; exact Hdy]. }
  split; [reflexivity|].
  destruct (finish_button pressed dx dy (or_introl Hp)) as [Hf1 Hd1].
  destruct (finish_button released dx dy (or_intror Hr)) as [Hf2 Hd2].
  cbv zeta in Hf1, Hd1, Hf2, Hd2.
  rewrite Hf1, Hd1, Hf2, Hd2, Hb, Hp, Hr. clear Hf1 Hd1 Hf2 Hd2.
  split; [|split; [reflexivity|]].
  - destruct (mouse_button pressed =? MOUSE_BUTTON1); [reflexivity|].
    destruct (mouse_button pressed =? MOUSE_BUTTON2); [reflexivity|].
    destruct (mouse_button pressed =? MOUSE_BUTTON3); reflexivity.
  - unfold finish_input. rewrite Hp, Hr, Hb.
    destruct (mouse_button pressed =? MOUSE_BUTTON1);
      [split; reflexivity|].
    destruct (mouse_button pressed =? MOUSE_BUTTON2);
      [split; reflexivity|].
    destruct (mouse_button pressed =? MOUSE_BUTTON3);
      [split; reflexivity|].
    destruct (mouse_button pressed =? MOUSE_BUTTON4);
      [split; reflexivity|].
    destruct (mouse_button pressed =? MOUSE_BUTTON5);
      split; reflexivity.
Qed.

(** X15.  A button event with the ordinal 0 is still submitted, as an
    extra-button transition whose auxiliary data is [0 - 3] wrapped to
    32 bits. *)
Theorem X15_button_zero_wraps (o : os) (event : uiohook_event) :
  type event = EVENT_MOUSE_PRESSED \/ type event = EVENT_MOUSE_RELEASED ->
  mouse_button event = 0 ->
  calloc_succeeds o = true ->
  screen_width o <> 0 -> screen_height o <> 0 ->
  exists input d,
    run o event = Some (tt, d) /\
    sent d = [input] /\
    mi_dwFlags input = x_transition (type event) /\
    mi_mouseData input = 2 ^ 32 - 3.
Proof.
  intros Hty Hb Halloc Hw Hh.
  destruct (conversions_defined o event Hw Hh) as (dx & dy & Hx & Hy).
  exists (finish_input event (mouse_record dx dy)). eexists.
  split.
  { eapply run_mouse_event; eauto. now destruct Hty as [-> | ->]. }
  split; [reflexivity|].
  destruct (finish_button event dx dy Hty) as [Hflags Hdata].
  cbv zeta in Hflags, Hdata. rewrite Hflags, Hdata, Hb.
  split; reflexivity.
Qed.

(** X16.  Only the low 16 bits of the screen metrics reach the
    normalization: hosts whose metrics agree modulo 65536 give the same
    call. *)
Theorem X16_extents_are_16_bit (o : os) (metrics : Z -> Z)
        (event : uiohook_event) (w : world) :
  metrics SM_CXSCREEN mod 65536 = GetSystemMetrics o SM_CXSCREEN mod 65536 ->
  metrics SM_CYSCREEN mod 65536 = GetSystemMetrics o SM_CYSCREEN mod 65536 ->
  hook_post_event (with_metrics metrics o) event w = hook_post_event o event w.
Proof.
  intros Hcx Hcy. unfold_hook_post_event.
  cbn [GetSystemMetrics with_metrics].
  change (to_uint16_t (metrics SM_CXSCREEN))
    with (metrics SM_CXSCREEN mod 65536).
  change (to_uint16_t (metrics SM_CYSCREEN))
    with (metrics SM_CYSCREEN mod 65536).
  rewrite Hcx, Hcy.
  change (GetSystemMetrics o SM_CXSCREEN mod 65536) with (screen_width o).
  change (GetSystemMetrics o SM_CYSCREEN mod 65536) with (screen_height o).
  assert (Hprep : forall sw sh,
            prepare_input (with_metrics metrics o) event sw sh w =
            prepare_input o event sw sh w).
  { intros sw sh. destruct o. reflexivity. }
  rewrite Hprep.
  destruct (prepare_input o event _ _ w) as [[[input|] d]|]; reflexivity.
Qed.

End Further.

(** X17.  Only keyboard events consult the SHIFT mask and the Keycode
    Resolver: for every other event the call is the same whatever the
    two are. *)
Theorem X17_resolver_only_for_keyboard_events
        (MASK_SHIFT MASK_SHIFT' : Z)
        (scancode_to_keycode scancode_to_keycode' : Z -> Z)
        (o : os) (event : uiohook_event) (w : world) :
  is_keyboard_event (type event) = false ->
  hook_post_event MASK_SHIFT scancode_to_keycode o event w =
  hook_post_event MASK_SHIFT' scancode_to_keycode' o event w.
Proof.
  intros Hty.
  destruct event as [ty m kc b x y a r]; cbn [type] in Hty.
  destruct ty; try discriminate Hty; reflexivity.
Qed.

(** ** The further properties on sample runs *)

Lemma X1_centre_and_left_edge_come_back :
  Z.quot (32769 * 1920) MAX_WINDOWS_COORD_VALUE = 960 /\
  Z.quot (-35 * 1920) MAX_WINDOWS_COORD_VALUE = -1.
Proof.
  split.
  - apply (X1_normalization_round_trip 960 1920 32769).
    + lia.
    + lia.
    + reflexivity.
  - apply (X1_normalization_round_trip (-1) 1920 (-35)).
    + lia.
    + lia.
    + reflexivity.
Defined.

Lemma X2_neighbouring_pixels_stay_apart :
  3414 <= 3448 /\ (1920 <= 65535 -> 100 < 101 -> 3414 < 3448).
Proof.
  apply (X2_normalization_monotone 100 101 1920 3414 3448).
  - lia.
  - lia.
  - lia.
  - lia.
  - reflexivity.
  - reflexivity.
Defined.

Lemma X3_mirror_of_the_centre :
  convert_to_relative_position (- 960) 1920 =
  option_map Z.opp (convert_to_relative_position 960 1920).
Proof.
  apply (X3_normalization_odd 960 1920).
  - lia.
  - lia.
  - lia.
Defined.

Lemma X4_origin_is_minus_one :
  exists n,
    convert_to_relative_position 0 1920 = Some n /\
    (0 < 0 -> 1 <= n) /\ (0 <= 0 -> n <= -1) /\ (0 = 0 -> n = -1).
Proof.
  apply (X4_normalization_sign 0 1920).
  - lia.
  - lia.
Defined.

Lemma X5_last_pixel_of_the_row :
  exists n, convert_to_relative_position 1919 1920 = Some n /\ 2 <= n <= 65535.
Proof.
  apply (X5_on_screen_range 1919 1920).
  - lia.
  - lia.
  - lia.
Defined.

Lemma X7_unknown_key_on_rejecting_desktop :
  exists d,
    {| log := [(LOG_LEVEL_WARN, Unable_to_lookup_scancode 0x0FFF);
               (LOG_LEVEL_ERROR, SendInput_failed 5)];
       sent := [key_record 0 KEYEVENTF_KEYDOWN] |} = after untouched d /\
    (length (sent d) <= 1)%nat /\
    (length (log d) <= 2)%nat.
Proof.
  apply (X7_at_most_one_record sample_MASK_SHIFT sample_resolver
           desktop_rejecting (key_event EVENT_KEY_PRESSED 0 0x0FFF)
           untouched).
  reflexivity.
Defined.

Lemma X9_rejected_key_press :
  filter is_ERROR
    [(LOG_LEVEL_WARN, Unable_to_lookup_scancode 0x0FFF);
     (LOG_LEVEL_ERROR, SendInput_failed 5)] =
  [(LOG_LEVEL_ERROR, SendInput_failed 5)].
Proof.
  apply (X9_SendInput_failure_logged_once sample_MASK_SHIFT sample_resolver
           desktop_rejecting (key_event EVENT_KEY_PRESSED 0 0x0FFF)
           {| log := [(LOG_LEVEL_WARN, Unable_to_lookup_scancode 0x0FFF);
                      (LOG_LEVEL_ERROR, SendInput_failed 5)];
              sent := [key_record 0 KEYEVENTF_KEYDOWN] |}
           (key_record 0 KEYEVENTF_KEYDOWN)).
  - reflexivity.
  - reflexivity.
Defined.

Lemma X10_key_above_the_WORD_range :
  exists d,
    run sample_MASK_SHIFT (fun _ => 0x10000) desktop
        (key_event EVENT_KEY_PRESSED 0 0x001E) = Some (tt, d) /\
    filter is_WARN (log d) =
    [(LOG_LEVEL_WARN, Unable_to_lookup_scancode 0x001E)].
Proof.
  destruct (X10_warn_iff_key_word_zero sample_MASK_SHIFT (fun _ => 0x10000)
              desktop (key_event EVENT_KEY_PRESSED 0 0x001E)
              eq_refl eq_refl) as (d & Hrun & _ & Hwarn).
  exists d. split; [exact Hrun|]. apply Hwarn. reflexivity.
Defined.


Lemma X12_shift_up_arrow_is_extended :
  exists input d,
    run sample_MASK_SHIFT sample_resolver desktop
        (key_event EVENT_KEY_PRESSED 0x10 0xE048) = Some (tt, d) /\
    sent d = [input] /\
    has_flag (ki_dwFlags input) KEYEVENTF_EXTENDEDKEY = true.
Proof.
  destruct (X12_extended_flag_sound sample_MASK_SHIFT sample_resolver desktop
              (key_event EVENT_KEY_PRESSED 0x10 0xE048) eq_refl eq_refl)
    as (input & d & Hrun & Hsent & _ & Hset).
  exists input, d. split; [exact Hrun|]. split; [exact Hsent|].
  apply Hset.
  - reflexivity.
  - vm_compute in Hrun. injection Hrun as <-.
    injection Hsent as <-. reflexivity.
Defined.

Lemma X13_wheel_notch_at_a_point :
  exists input d,
    run sample_MASK_SHIFT sample_resolver desktop (wheel_event 1 (-1))
    = Some (tt, d) /\
    sent d = [input] /\
    input_type input = INPUT_MOUSE /\
    convert_to_relative_position 100 1920 = Some (mi_dx input) /\
    convert_to_relative_position 200 1080 = Some (mi_dy input) /\
    has_flag (mi_dwFlags input) MOUSEEVENTF_MOVE = false /\
    has_flag (mi_dwFlags input) MOUSEEVENTF_ABSOLUTE = false.
Proof.
  apply (X13_buttons_and_wheel_do_not_move sample_MASK_SHIFT sample_resolver
           desktop (wheel_event 1 (-1))).
  - right; right; reflexivity.
  - reflexivity.
  - vm_compute; lia.
  - vm_compute; lia.
Defined.

Lemma X14_left_click_at_a_point :
  exists down up d1 d2,
    run sample_MASK_SHIFT sample_resolver desktop
        (mouse_event EVENT_MOUSE_PRESSED 1 100 200) = Some (tt, d1) /\
    sent d1 = [down] /\
    run sample_MASK_SHIFT sample_resolver desktop
        (mouse_event EVENT_MOUSE_RELEASED 1 100 200) = Some (tt, d2) /\
    sent d2 = [up] /\
    mi_dwFlags up = 2 * mi_dwFlags down /\
    mi_mouseData up = mi_mouseData down /\
    mi_dx up = mi_dx down /\ mi_dy up = mi_dy down.
Proof.
  apply (X14_release_mirrors_press sample_MASK_SHIFT sample_resolver desktop
           (mouse_event EVENT_MOUSE_PRESSED 1 100 200)
           (mouse_event EVENT_MOUSE_RELEASED 1 100 200)).
  - reflexivity.
  - reflexivity.
  - reflexivity.
  - reflexivity.
  - reflexivity.
  - reflexivity.
  - vm_compute; lia.
  - vm_compute; lia.
Defined.

Lemma X15_press_without_a_button :
  exists input d,
    run sample_MASK_SHIFT sample_resolver desktop
        (mouse_event EVENT_MOUSE_PRESSED 0 100 200) = Some (tt, d) /\
    sent d = [input] /\
    mi_dwFlags input = MOUSEEVENTF_XDOWN /\
    mi_mouseData input = 0xFFFFFFFD.
Proof.
  apply (X15_button_zero_wraps sample_MASK_SHIFT sample_resolver desktop
           (mouse_event EVENT_MOUSE_PRESSED 0 100 200)).
  - left; reflexivity.
  - reflexivity.
  - reflexivity.
  - vm_compute; lia.
  - vm_compute; lia.
Defined.

Lemma X16_metrics_beyond_16_bits :
  hook_post_event sample_MASK_SHIFT sample_resolver
    (with_metrics (fun index => GetSystemMetrics desktop index + 65536)
                  desktop)
    (mouse_event EVENT_MOUSE_MOVED 0 960 540) untouched
  = hook_post_event sample_MASK_SHIFT sample_resolver desktop
      (mouse_event EVENT_MOUSE_MOVED 0 960 540) untouched.
Proof.
  apply (X16_extents_are_16_bit sample_MASK_SHIFT sample_resolver desktop
           (fun index => GetSystemMetrics desktop index + 65536)
           (mouse_event EVENT_MOUSE_MOVED 0 960 540) untouched).
  - reflexivity.
  - reflexivity.
Defined.

Lemma X8_only_the_move_faults_without_a_display :
  hook_post_event sample_MASK_SHIFT sample_resolver headless
    (mouse_event EVENT_MOUSE_MOVED 0 100 200) untouched = None /\
  hook_post_event sample_MASK_SHIFT sample_resolver headless
    (key_event EVENT_KEY_PRESSED 0 0x001E) untouched <> None.
Proof.
  split.
  - apply (X8_fault_iff_zero_extent sample_MASK_SHIFT sample_resolver
             headless (mouse_event EVENT_MOUSE_MOVED 0 100 200) untouched).
    split; [reflexivity|]. split; [reflexivity|]. left; reflexivity.
  - intros Hnone.
    apply (X8_fault_iff_zero_extent sample_MASK_SHIFT sample_resolver
             headless (key_event EVENT_KEY_PRESSED 0 0x001E) untouched)
      in Hnone.
    destruct Hnone as [Hmouse _]. discriminate Hmouse.
Defined.

Lemma X17_wheel_with_another_resolver :
  hook_post_event sample_MASK_SHIFT sample_resolver desktop
    (wheel_event 3 1) untouched =
  hook_post_event 0 (fun _ => 0) desktop (wheel_event 3 1) untouched.
Proof.
  apply (X17_resolver_only_for_keyboard_events
           sample_MASK_SHIFT 0 sample_resolver (fun _ => 0)
           desktop (wheel_event 3 1) untouched).
  reflexivity.
Defined.
